(** * Receptive Science: the bench and the simulated-effect model

    A shallow embedding of [src/app.js]: the data service's
    [getSimulatedEffects], the drop handler installed by
    [setupDropOnBeakers], [addMoleculeToBeaker], [updateSummary],
    [showReceptorDialog], the ['dragstart'] and ['dblclick'] listeners and
    what [displayConnectionResult] and [initBrainChart] put on display.  The
    render loop, the vision canvas and the audio are not modelled (time,
    trigonometry and the page's sliders are outside the source).

    Conventions of the embedding.
    - JavaScript numbers are idealised as exact rationals ([Q]); NaN,
      infinities and rounding of doubles are outside the model.
    - [app.js] starts with [import] declarations, so it is an ES module and
      all of its code is strict-mode code.
    - The mutable program state (global object, catalog, beakers, what was
      handed to the DOM / three.js / chart backends, and the entropy source
      behind [Math.random]) is threaded explicitly through a small
      state-and-exception monad.
    - three.js is an external library: its colour parser is a section
      variable, its [lerp] is modelled from its description. *)

From Stdlib Require Import QArith Qpower Qround Qminmax ZArith Lia Lqa String
  List.
From stdpp Require Import gmap strings list.

(* ================================================================== *)
(** ** JavaScript primitives used by [app.js] *)
(* ================================================================== *)

Module Js.

(** Exceptions the modelled code can raise. *)
Inductive Error : Type :=
| ReferenceError (name : string)   (* unresolvable identifier *)
| TypeError (what : string).       (* property access on [undefined] *)

Inductive Result (A : Type) : Type :=
| Ok (a : A)
| Throw (e : Error).
Arguments Ok {A} a.
Arguments Throw {A} e.

(** [Math.round]: nearest integer, ties towards +infinity. *)
Definition Math_round (x : Q) : Z := Qfloor (x + 0.5).

(** [Math.min] / [Math.max] on integers (the index computation). *)
Definition Math_min (a b : Z) : Z := Z.min a b.
Definition Math_max (a b : Z) : Z := Z.max a b.

(** Truthiness: a number is falsy when it is zero, a string when it is
    empty, [undefined] always. *)
Definition truthy_num (q : Q) : bool := negb (Qeq_bool q 0).
Definition truthy_str (s : string) : bool := negb (String.eqb s "").

(** [v || d] for a possibly-undefined number, resp. string. *)
Definition or_num (v : option Q) (d : Q) : Q :=
  match v with
  | Some q => if truthy_num q then q else d
  | None => d
  end.

Definition or_str (v : option string) (d : string) : string :=
  match v with
  | Some s => if truthy_str s then s else d
  | None => d
  end.

End Js.
Import Js.

(* ================================================================== *)
(** ** Data model *)
(* ================================================================== *)

(** One entry of a molecule's [targets] array. *)
Record Target : Type := mkTarget {
  receptor : string;
  affinity : Q
}.

(** A record of [molecules.json].  [color], [safety] and [targets] may be
    missing: the code guards each of them ([||], [?.]). *)
Record Molecule : Type := mkMolecule {
  mol_id : string;
  mol_name : string;
  mol_formula : string;
  mol_color : option string;
  mol_safety : option string;
  mol_targets : option (list Target)
}.

Record Brainwave : Type := mkBrainwave {
  delta : Q;
  theta : Q;
  alpha : Q;
  beta : Q
}.

(** The object returned by [getSimulatedEffects]. *)
Record EffectResult : Type := mkEffect {
  activation : Q;
  brainwave : Brainwave;
  mood : string;
  safety : string;
  sim_receptor : string
}.

(** A [THREE.Color]: three channels. *)
Record Color : Type := mkColor {
  cr : Q;
  cg : Q;
  cb : Q
}.

Definition Vec3 : Type := (Q * Q * Q)%type.

(** An element of the [beakers] array (the glass mesh is not modelled;
    [liquid] is [beaker.liquid.material.color]). *)
Record Beaker : Type := mkBeaker {
  position : Vec3;
  liquid : Color;
  contents : list Molecule
}.

(** What the code hands to the rendering, DOM and chart backends. *)
Inductive Emission : Type :=
| SceneAddSphere (color emissive : string) (pos : Vec3)
| SummaryPlaced (total : nat)
| ConnectionResult (mol : Molecule) (sim : EffectResult).

(** The program state.  [globals] holds the properties of the global object
    (the binding looked up for an identifier declared nowhere in the
    module); [entropy] is the sequence of values [Math.random] will return,
    [drawn] how many have been consumed. *)
Record World : Type := mkWorld {
  globals : gmap string Q;
  molecules : list Molecule;
  beakers : list Beaker;
  sink : list Emission;
  entropy : nat -> Q;
  drawn : nat
}.

Definition set_globals (g : gmap string Q) (w : World) : World :=
  mkWorld g (molecules w) (beakers w) (sink w) (entropy w) (drawn w).
Definition set_beakers (bs : list Beaker) (w : World) : World :=
  mkWorld (globals w) (molecules w) bs (sink w) (entropy w) (drawn w).
Definition set_sink (s : list Emission) (w : World) : World :=
  mkWorld (globals w) (molecules w) (beakers w) s (entropy w) (drawn w).
Definition set_drawn (n : nat) (w : World) : World :=
  mkWorld (globals w) (molecules w) (beakers w) (sink w) (entropy w) n.

(* ================================================================== *)
(** ** The state-and-exception monad *)
(* ================================================================== *)

Definition M (A : Type) : Type := World -> Result A * World.

Definition ret {A : Type} (a : A) : M A := fun w => (Ok a, w).

Definition bind {A B : Type} (m : M A) (k : A -> M B) : M B :=
  fun w =>
    match m w with
    | (Ok a, w') => k a w'
    | (Throw e, w') => (Throw e, w')
    end.

Definition throw {A : Type} (e : Error) : M A := fun w => (Throw e, w).

Declare Scope js_scope.
Delimit Scope js_scope with js.
Notation "x <- m ;; k" := (bind m (fun x => k))
  (at level 100, m at next level, right associativity) : js_scope.
Notation "m ;;; k" := (bind m (fun _ => k))
  (at level 100, right associativity) : js_scope.

(** [Math.random()]: the next value of the entropy source. *)
Definition Math_random : M Q :=
  fun w => (Ok (entropy w (drawn w)), set_drawn (S (drawn w)) w).

(** [name = v] for an identifier with no declaration in the module.  The
    reference resolves through the global object; when the global object has
    no such property the reference is unresolvable and, the code being
    strict, the assignment throws instead of creating the property. *)
Definition assign_global (name : string) (v : Q) : M unit :=
  fun w =>
    match globals w !! name with
    | Some _ => (Ok tt, set_globals (<[name := v]> (globals w)) w)
    | None => throw (ReferenceError name) w
    end.

(** Reading such an identifier. *)
Definition read_global (name : string) : M Q :=
  fun w =>
    match globals w !! name with
    | Some v => (Ok v, w)
    | None => throw (ReferenceError name) w
    end.

(** Handing something to a backend. *)
Definition emit (e : Emission) : M unit :=
  fun w => (Ok tt, set_sink (sink w ++ [e]) w).

(* ================================================================== *)
(** ** The data service: [getSimulatedEffects] *)
(* ================================================================== *)

Open Scope Q_scope.
Open Scope js_scope.

(** [targets.find(t => t.receptor === receptor)]: first entry whose receptor
    is the same string. *)
Definition find_target (ts : list Target) (r : string) : option Target :=
  List.find (fun t => String.eqb (receptor t) r) ts.

(** The right-hand side of the assignment at line 16:
    [(molecule.targets?.find(...)?.affinity) || 0.05]. *)
Definition lookup_affinity (molecule : Molecule) (r : string) : Q :=
  or_num
    (match mol_targets molecule with
     | Some ts => option_map affinity (find_target ts r)
     | None => None
     end)
    0.05.

(** One brainwave component: [Math.max(0, base + (activation*scale)*rnd)]. *)
Definition wave (base scale act rnd : Q) : Q :=
  Qmax 0 (base + (act * scale) * rnd).

Definition getSimulatedEffects (molecule : Molecule) (r : string)
  : M EffectResult :=
  assign_global "constAffinity" (lookup_affinity molecule r) ;;;
  constAffinity <- read_global "constAffinity" ;;
  r0 <- Math_random ;;
  let act := Qmin 1 (constAffinity * (0.8 + r0 * 0.6)) in
  r1 <- Math_random ;;
  r2 <- Math_random ;;
  r3 <- Math_random ;;
  r4 <- Math_random ;;
  let bw := {| delta := wave 0.1 0.1 act r1;
               theta := wave 0.1 0.08 act r2;
               alpha := wave 0.2 0.12 act r3;
               beta := wave 0.15 0.09 act r4 |} in
  let md := if Qlt_le_dec 0.4 act then "elevated"%string
            else "neutral"%string in
  let sf := or_str (mol_safety molecule) "yellow" in
  ret {| activation := act; brainwave := bw; mood := md;
         safety := sf; sim_receptor := r |}.

(** The object [getSimulatedEffects] builds once the assignment at line 16
    has gone through, written in closed form over the draws it consumes
    (see [getSimulatedEffects_bound]). *)
Definition effect_of (m : Molecule) (r : string) (w : World) : EffectResult :=
  let e i := entropy w (i + drawn w)%nat in
  let act := Qmin 1 (lookup_affinity m r * (0.8 + e 0%nat * 0.6)) in
  {| activation := act;
     brainwave := {| delta := wave 0.1 0.1 act (e 1%nat);
                     theta := wave 0.1 0.08 act (e 2%nat);
                     alpha := wave 0.2 0.12 act (e 3%nat);
                     beta := wave 0.15 0.09 act (e 4%nat) |};
     mood := if Qlt_le_dec 0.4 act then "elevated"%string
             else "neutral"%string;
     safety := or_str (mol_safety m) "yellow";
     sim_receptor := r |}.

(* ================================================================== *)
(** ** The bench *)
(* ================================================================== *)

(** The inline index computation of the drop handler (line 162):
    [Math.min(Math.max(Math.round((x+1)*1.5),0), beakers.length-1)]. *)
Definition resolveDropTarget (beakerCount : nat) (x : Q) : Z :=
  Math_min (Math_max (Math_round ((x + 1) * 1.5)) 0)
           (Z.of_nat beakerCount - 1).

(** The mapping in the words of the specification:
    [round((x+1) * (beakerCount-1)/2)] clamped to [[0, beakerCount-1]]. *)
Definition spec_resolveDropTarget (beakerCount : nat) (x : Q) : Z :=
  let top := (Z.of_nat beakerCount - 1)%Z in
  Z.min (Z.max (Math_round ((x + 1) * (inject_Z top / 2))) 0) top.

(** Modelled from the spec: [THREE.Color.lerp] is library code outside
    [src/]; the specification describes it as linear interpolation in colour
    space, a step of [t] from [a] towards [b]. *)
Definition lerp (a b : Color) (t : Q) : Color :=
  {| cr := cr a + (cr b - cr a) * t;
     cg := cg a + (cg b - cg a) * t;
     cb := cb a + (cb b - cb a) * t |}.

(** [beakers.reduce((acc,b)=>acc + b.contents.length, 0)]. *)
Definition totalContents (bs : list Beaker) : nat :=
  fold_left (fun acc b => (acc + length (contents b))%nat) bs 0%nat.

Definition updateSummary : M unit :=
  fun w => emit (SummaryPlaced (totalContents (beakers w))) w.

(** [beakers[idx]]: [undefined] outside the array. *)
Definition beaker_at (bs : list Beaker) (idx : Z) : option Beaker :=
  if (idx <? 0)%Z then None else bs !! Z.to_nat idx.

Section Bench.

(** [new THREE.Color(cssString)] and [new THREE.Color(hexNumber)]. *)
Variable colorOfStyle : string -> Color.
Variable colorOfHex : Z -> Color.

(** [addMoleculeToBeaker(mol, beakers[idx])].  The source receives the
    beaker object itself, which is the element of the shared [beakers]
    array; here it is named by its index.  An [undefined] beaker makes
    [beaker.contents] throw.  The time-driven bobbing of the sphere is not
    modelled, and neither is what the three.js constructors do inside
    (they draw from [Math.random] for their object ids): [drawn] counts the
    draws made by the code of [app.js] itself. *)
Definition addMoleculeToBeaker (mol : Molecule) (idx : Z) : M unit :=
  fun w =>
    match beaker_at (beakers w) idx with
    | None => throw (TypeError "beaker.contents") w
    | Some beaker =>
        let contents' := contents beaker ++ [mol] in
        let add := colorOfStyle (or_str (mol_color mol) "#66c2ff") in
        let color := lerp (liquid beaker) add 0.2 in
        let beaker' := {| position := position beaker;
                          liquid := color;
                          contents := contents' |} in
        let '(px, py, pz) := position beaker in
        let pos := (px,
                    py + (1.6 + inject_Z (Z.of_nat (length contents')) * 0.2),
                    pz) in
        (emit (SceneAddSphere (or_str (mol_color mol) "#f2f2f2")
                              (or_str (mol_color mol) "#303030") pos) ;;;
         updateSummary)
          (set_beakers (<[Z.to_nat idx := beaker']> (beakers w)) w)
    end.

(** The drop event, as far as the handler reads it. *)
Record DropEvent : Type := mkDrop {
  payload : string;        (* dataTransfer.getData('text/molecule-id') *)
  clientX : Q;
  rect_left : Q;
  rect_width : Q
}.

(** The normalized coordinate of line 160.  The quotient is the number the
    code computes only when the bounding rectangle has a non-zero width; for
    a width of 0 JavaScript yields NaN or an infinity, which the rationals do
    not have, so statements about arbitrary drops assume a positive width. *)
Definition normalizedX (ev : DropEvent) : Q :=
  (clientX ev - rect_left ev) / rect_width ev * 2 - 1.

(** The ['drop'] listener of [setupDropOnBeakers]. *)
Definition onDrop (ev : DropEvent) : M unit :=
  fun w =>
    let id := payload ev in
    if negb (truthy_str id) then ret tt w
    else
      match List.find (fun m => String.eqb (mol_id m) id) (molecules w) with
      | None => ret tt w
      | Some mol =>
          let x := normalizedX ev in
          let idx := resolveDropTarget (length (beakers w)) x in
          addMoleculeToBeaker mol idx w
      end.

(** The three beakers pushed by [initThreeScene]. *)
Definition initial_beakers : list Beaker :=
  map (fun i => {| position := (-4 + inject_Z i * 4, 0.8, 0);
                   liquid := colorOfHex 0x66c2ff;
                   contents := [] |})
      [0%Z; 1%Z; 2%Z].

End Bench.

(* ================================================================== *)
(** ** Connecting a molecule to a receptor *)
(* ================================================================== *)

(** [displayConnectionResult]: everything it does goes to the backends. *)
Definition displayConnectionResult (mol : Molecule) (sim : EffectResult)
  : M unit :=
  emit (ConnectionResult mol sim).

(** The receptor name chosen from the prompt's answer (line 250). *)
Definition receptor_name (answer : string) : string :=
  if String.eqb answer "1" then "5-HT2A"
  else if String.eqb answer "2" then "D2"
  else if String.eqb answer "3" then "GABA-A"
  else answer.

(** [showReceptorDialog(mol)]; [answer] is what [prompt] returned, [None]
    for [null] (dialog cancelled). *)
Definition showReceptorDialog (mol : Molecule) (answer : option string)
  : M unit :=
  match answer with
  | None => ret tt
  | Some a =>
      if negb (truthy_str a) then ret tt
      else
        sim <- getSimulatedEffects mol (receptor_name a) ;;
        displayConnectionResult mol sim
  end.

(* ================================================================== *)
(** ** Well-formed catalog records and sample inputs *)
(* ================================================================== *)

(** The data-model invariant on a molecule: every listed affinity lies in
    [[0,1]]. *)
Definition valid_molecule (m : Molecule) : Prop :=
  match mol_targets m with
  | Some ts => Forall (fun t => 0 <= affinity t <= 1) ts
  | None => True
  end.

(** No entry of the molecule's target list (if it has one) names [r]. *)
Definition has_no_target (m : Molecule) (r : string) : Prop :=
  match mol_targets m with
  | Some ts => forall t, In t ts -> receptor t <> r
  | None => True
  end.

(** A molecule binding D2 strongly, one listing D2 with affinity zero, and
    one without a [targets] array. *)
Definition mol_d2 : Molecule :=
  mkMolecule "m1" "Dopamine" "C8H11NO2" (Some "#ff0000"%string) None
             (Some [mkTarget "5-HT2A" 0.3; mkTarget "D2" 0.9]).

Definition mol_zero : Molecule :=
  mkMolecule "m2" "Inert" "H2O" (Some "#00ff00"%string) (Some "green"%string)
             (Some [mkTarget "D2" 0]).

Definition mol_bare : Molecule :=
  mkMolecule "m3" "Bare" "He" None None None.

(** A stand-in for the colour constructors of three.js, to run the model. *)
Definition demo_colorOfHex (z : Z) : Color :=
  {| cr := inject_Z (Z.land (Z.shiftr z 16) 255) / 255;
     cg := inject_Z (Z.land (Z.shiftr z 8) 255) / 255;
     cb := inject_Z (Z.land z 255) / 255 |}.

Definition demo_colorOfStyle (s : string) : Color :=
  if String.eqb s "#ff0000" then demo_colorOfHex 0xff0000
  else if String.eqb s "#00ff00" then demo_colorOfHex 0x00ff00
  else demo_colorOfHex 0x66c2ff.

(** The world right after start-up: the catalog loaded, three beakers, no
    property named [constAffinity] on the global object; and the same world
    with such a property put there by some other script. *)
Definition module_world : World :=
  {| globals := ∅;
     molecules := [mol_d2; mol_zero; mol_bare];
     beakers := initial_beakers demo_colorOfHex;
     sink := [];
     entropy := fun _ => 0.5;
     drawn := 0 |}.

Definition patched_world : World :=
  set_globals {[ "constAffinity"%string := 0 ]} module_world.

(** A beaker after [mol], of colour string [c], has been added to it. *)
Definition blended (colorOfStyle : string -> Color) (mol : Molecule)
  (c : string) (b : Beaker) : Beaker :=
  {| position := position b;
     liquid := lerp (liquid b) (colorOfStyle c) 0.2;
     contents := contents b ++ [mol] |}.

(** Drops of [mol_d2]'s card on the left edge of an 800 pixel wide canvas,
    of an empty payload, and of a card that is not in the catalog. *)
Definition drop_left_edge : DropEvent := mkDrop "m1" 100 100 800.
Definition drop_empty : DropEvent := mkDrop "" 500 100 800.
Definition drop_stale : DropEvent := mkDrop "m99" 500 100 800.

(* ================================================================== *)
(** ** The rest of the interaction code *)
(* ================================================================== *)

(** The ['dragstart'] listener of a molecule card (lines 57-59): the
    transfer payload is the molecule's id. *)
Definition onDragStart (m : Molecule) : string := mol_id m.

(** Whether a drop carries the id of a catalog molecule: the two guards of
    the drop handler (lines 155 and 157). *)
Definition names_molecule (ms : list Molecule) (ev : DropEvent) : bool :=
  truthy_str (payload ev) &&
  match List.find (fun m => String.eqb (mol_id m) (payload ev)) ms with
  | Some _ => true
  | None => false
  end.

(** The program state after the event loop has run the drop handler on a
    sequence of events, one after the other, each to completion (an exception
    ends one handler, not the loop). *)
Definition after_drops (colorOfStyle : string -> Color)
  (evs : list DropEvent) (w : World) : World :=
  fold_left (fun w' ev => snd (onDrop colorOfStyle ev w')) evs w.

(** Where [addMoleculeToBeaker] puts the sphere of the [n]-th molecule of a
    beaker (lines 179-181). *)
Definition sphere_pos (b : Beaker) (n : nat) : Vec3 :=
  let '(px, py, pz) := position b in
  (px, py + (1.6 + inject_Z (Z.of_nat n) * 0.2), pz).

(** The beaker after [mol] has been added to it, whatever its colour. *)
Definition beaker_plus (colorOfStyle : string -> Color) (mol : Molecule)
  (b : Beaker) : Beaker :=
  {| position := position b;
     liquid := lerp (liquid b)
                    (colorOfStyle (or_str (mol_color mol) "#66c2ff")) 0.2;
     contents := contents b ++ [mol] |}.

(** All three channels of a colour within [[0,1]]. *)
Definition in_gamut (c : Color) : Prop :=
  (0 <= cr c <= 1) /\ (0 <= cg c <= 1) /\ (0 <= cb c <= 1).

(** The program state after [mol] has been added [k] times in a row to the
    beaker at index [i]. *)
Definition add_times (colorOfStyle : string -> Color) (mol : Molecule)
  (i k : nat) (w : World) : World :=
  Nat.iter k
    (fun w' => snd (addMoleculeToBeaker colorOfStyle mol (Z.of_nat i) w')) w.

Section Pick.

(** [String.prototype.toLowerCase], a built-in the model does not look
    into. *)
Variable toLowerCase : string -> string.

(** [molecules.find(m => m.color &&
      m.color.toLowerCase() === colorHex.toLowerCase())] (line 238). *)
Definition pick_by_color (colorHex : string) (ms : list Molecule)
  : option Molecule :=
  List.find (fun m =>
               match mol_color m with
               | Some c => truthy_str c &&
                           String.eqb (toLowerCase c) (toLowerCase colorHex)
               | None => false
               end) ms.

(** The ['dblclick'] listener of [setupUI] from the point where the ray cast
    has answered: [hit] is the colour string of the first icosahedron the
    ray met ([None] when it met none); [answer] is what [prompt] returns if
    it gets asked. *)
Definition onDblClick (hit : option string) (answer : option string)
  : M unit :=
  fun w =>
    match hit with
    | None => ret tt w
    | Some colorHex =>
        match pick_by_color colorHex (molecules w) with
        | Some mol => showReceptorDialog mol answer w
        | None => ret tt w
        end
    end.

End Pick.

(** *** What [displayConnectionResult] shows *)

(** The [data] arrays of the four chart datasets. *)
Record Chart : Type := mkChart {
  ch_delta : list Q;
  ch_theta : list Q;
  ch_alpha : list Q;
  ch_beta : list Q
}.

(** The chart built by [initBrainChart]. *)
Definition initial_chart : Chart :=
  {| ch_delta := [0.12; 0.14; 0.11; 0.1];
     ch_theta := [0.08; 0.09; 0.13; 0.1];
     ch_alpha := [0.2; 0.19; 0.21; 0.18];
     ch_beta := [0.15; 0.16; 0.14; 0.13] |}.

(** [data.push(v); data.shift()]. *)
Definition push_shift (data : list Q) (v : Q) : list Q :=
  tl (data ++ [v]).

(** Lines 275-279: one sample per band. *)
Definition chart_update (c : Chart) (bw : Brainwave) : Chart :=
  {| ch_delta := push_shift (ch_delta c) (delta bw);
     ch_theta := push_shift (ch_theta c) (theta bw);
     ch_alpha := push_shift (ch_alpha c) (alpha bw);
     ch_beta := push_shift (ch_beta c) (beta bw) |}.

(** The chart after a series of results has been displayed. *)
Definition chart_after (bws : list Brainwave) (c : Chart) : Chart :=
  fold_left chart_update bws c.

(** The colour the hologram's emissive is set to (line 265). *)
Definition brain_emissive (sf : string) : Z :=
  if String.eqb sf "red" then 0xff6b6b
  else if String.eqb sf "yellow" then 0xffd36b
  else 0x79f2b2.

(** The hologram's opacity (line 269). *)
Definition brain_opacity (act : Q) : Q := 0.25 + act * 0.6.

(** The percentage of the summary sentence (line 283). *)
Definition activation_percent (act : Q) : Z := Math_round (act * 100).

(** The items written to the warnings list (lines 284-287). *)
Inductive Warning : Type :=
| HighRisk
| Experimental
| References.

Definition warnings_for (sf : string) : list Warning :=
  (if String.eqb sf "red" then [HighRisk] else []) ++
  (if String.eqb sf "yellow" then [Experimental] else []) ++
  [References].

(* ================================================================== *)
(** * Properties *)
(* ================================================================== *)

(** ** The drop index *)

Lemma Math_round_comp (x y : Q) : x == y -> Math_round x = Math_round y.
Proof.
  intros E. unfold Math_round. apply Qfloor_comp. now rewrite E.
Qed.

Lemma resolveDropTarget_comp (n : nat) (x y : Q) :
  x == y -> resolveDropTarget n x = resolveDropTarget n y.
Proof.
  intros E. unfold resolveDropTarget.
  rewrite (Math_round_comp ((x + 1) * 1.5) ((y + 1) * 1.5)); [reflexivity|].
  now rewrite E.
Qed.

(** With at least one beaker the index is a valid position of the array. *)
Lemma resolveDropTarget_range (n : nat) (x : Q) :
  (1 <= n)%nat ->
  (0 <= resolveDropTarget n x <= Z.of_nat n - 1)%Z.
Proof.
  intros Hn. unfold resolveDropTarget, Math_min, Math_max. lia.
Qed.


Lemma Math_round_right_edge : Math_round ((1 + 1) * 1.5) = 3%Z.
Proof. reflexivity. Qed.

(** The constant [1.5] is [(beakerCount-1)/2] for four beakers: there the
    code and the specified formula agree everywhere. *)
Lemma resolveDropTarget_four_beakers (x : Q) :
  resolveDropTarget 4 x = spec_resolveDropTarget 4 x.
Proof.
  unfold resolveDropTarget, spec_resolveDropTarget, Math_min, Math_max.
  rewrite (Math_round_comp ((x + 1) * 1.5)
             ((x + 1) * (inject_Z (Z.of_nat 4 - 1) / 2))); [reflexivity|].
  apply Qmult_comp; reflexivity.
Qed.

(** How the code splits the canvas among its three beakers. *)
Lemma resolveDropTarget_three_beakers (x : Q) :
  -1 <= x <= 1 ->
  resolveDropTarget 3 x =
    (if Qlt_le_dec x (-2 # 3) then 0
     else if Qlt_le_dec x 0 then 1 else 2)%Z.
Proof.
  intros [Hlo Hhi].
  unfold resolveDropTarget, Math_min, Math_max, Math_round.
  set (v := (x + 1) * 1.5 + 0.5).
  pose proof (Qfloor_le v) as Hfl.
  pose proof (Qlt_floor v) as Hlt.
  assert (Hz : forall k : Z, (Qfloor v + 1 <= k)%Z -> v < inject_Z k).
  { intros k Hk. eapply Qlt_le_trans; [exact Hlt|].
    rewrite <- Zle_Qle. exact Hk. }
  assert (Hz' : forall k : Z, (k <= Qfloor v)%Z -> inject_Z k <= v).
  { intros k Hk. eapply Qle_trans; [|exact Hfl].
    rewrite <- Zle_Qle. exact Hk. }
  destruct (Qlt_le_dec x (-2 # 3)) as [H1|H1];
    [|destruct (Qlt_le_dec x 0) as [H2|H2]].
  - assert (Qfloor v = 0)%Z; [|lia].
    destruct (Z_lt_le_dec (Qfloor v) 0) as [L|L];
      [specialize (Hz 0%Z ltac:(lia)); unfold v, inject_Z in Hz; lra|].
    destruct (Z_lt_le_dec (Qfloor v) 1) as [L'|L']; [lia|].
    specialize (Hz' 1%Z L'). unfold v, inject_Z in Hz'. lra.
  - assert (Qfloor v = 1)%Z; [|lia].
    destruct (Z_lt_le_dec (Qfloor v) 1) as [L|L];
      [specialize (Hz 1%Z ltac:(lia)); unfold v, inject_Z in Hz; lra|].
    destruct (Z_lt_le_dec (Qfloor v) 2) as [L'|L']; [lia|].
    specialize (Hz' 2%Z L'). unfold v, inject_Z in Hz'. lra.
  - assert (2 <= Qfloor v)%Z; [|lia].
    destruct (Z_lt_le_dec (Qfloor v) 2) as [L|L]; [|lia].
    specialize (Hz 2%Z ltac:(lia)). unfold v, inject_Z in Hz. lra.
Qed.

(** C1.  The drop handler's index is NOT the specified
    [round((x+1) * (beakerCount-1)/2)]: on the program's own bench of three
    beakers a drop at the horizontal centre of the canvas ([x = 0]) is sent
    to index 2, where the specified formula (and "nearest beaker") gives the
    middle beaker, index 1. *)
Theorem resolveDropTarget_centre_of_three :
  (forall colorOfHex, length (initial_beakers colorOfHex) = 3%nat) /\
  resolveDropTarget 3 0 = 2%Z /\
  spec_resolveDropTarget 3 0 = 1%Z.
Proof. repeat split. Qed.

(** From four beakers on, the right edge always lands on index 3. *)
Lemma resolveDropTarget_right_edge_saturates (n : nat) :
  (4 <= n)%nat -> resolveDropTarget n 1 = 3%Z.
Proof.
  intros Hn. unfold resolveDropTarget, Math_min, Math_max.
  rewrite Math_round_right_edge. lia.
Qed.


(** ** The simulated-effect model *)

(** In a global environment without a property of that name (the
    environment [app.js] itself sets up: it declares no such name), the
    assignment at line 16 throws before anything else happens. *)
Lemma getSimulatedEffects_unbound (m : Molecule) (r : string) (w : World) :
  globals w !! "constAffinity" = None ->
  getSimulatedEffects m r w = (Throw (ReferenceError "constAffinity"), w).
Proof.
  intros H. unfold getSimulatedEffects, bind, assign_global.
  rewrite H. reflexivity.
Qed.

(** Where the global object does have such a property, the call overwrites
    it, draws five values and returns. *)
Lemma getSimulatedEffects_bound (m : Molecule) (r : string) (w : World) (v : Q) :
  globals w !! "constAffinity" = Some v ->
  getSimulatedEffects m r w =
    (Ok (effect_of m r w),
     set_drawn (5 + drawn w)
       (set_globals (<["constAffinity" := lookup_affinity m r]> (globals w)) w)).
Proof.
  intros H. unfold getSimulatedEffects, bind, assign_global, read_global.
  rewrite H.
  cbv [set_globals globals]. rewrite lookup_insert_eq.
  reflexivity.
Qed.

(** In every environment the call either throws or returns. *)
Lemma getSimulatedEffects_cases (m : Molecule) (r : string) (w : World) :
  match globals w !! "constAffinity" with
  | None => getSimulatedEffects m r w = (Throw (ReferenceError "constAffinity"), w)
  | Some _ =>
      getSimulatedEffects m r w =
        (Ok (effect_of m r w),
         set_drawn (5 + drawn w)
           (set_globals (<["constAffinity" := lookup_affinity m r]> (globals w)) w))
  end.
Proof.
  destruct (globals w !! "constAffinity") as [v|] eqn:E.
  - now apply (getSimulatedEffects_bound m r w v).
  - now apply getSimulatedEffects_unbound.
Qed.

(** *** Target lookup *)

Lemma find_target_Some (ts : list Target) (r : string) (t : Target) :
  find_target ts r = Some t -> In t ts /\ receptor t = r.
Proof.
  unfold find_target. intros H. apply find_some in H as [Hin Heq].
  split; [exact Hin|]. now apply String.eqb_eq.
Qed.

Lemma find_target_None (ts : list Target) (r : string) :
  find_target ts r = None <-> (forall t, In t ts -> receptor t <> r).
Proof.
  unfold find_target. split.
  - intros H t Hin Heq.
    pose proof (find_none _ _ H t Hin) as Hf. cbv beta in Hf.
    apply String.eqb_neq in Hf. contradiction.
  - induction ts as [|t ts IH]; intros H; [reflexivity|]. cbn.
    destruct (String.eqb (receptor t) r) eqn:E.
    + apply String.eqb_eq in E. exfalso. apply (H t); [now left | exact E].
    + apply IH. intros t' Hin. apply H. now right.
Qed.

(** [find] returns the first match: nothing before it names [r]. *)
Lemma find_target_first (ts : list Target) (r : string) (t : Target) :
  find_target ts r = Some t ->
  exists pre post,
    ts = pre ++ t :: post /\ (forall t', In t' pre -> receptor t' <> r).
Proof.
  unfold find_target. induction ts as [|t0 ts IH]; [discriminate|]. cbn.
  destruct (String.eqb (receptor t0) r) eqn:E.
  - intros [= <-]. exists [], ts. split; [reflexivity|]. intros t' [].
  - intros H. destruct (IH H) as (pre & post & -> & Hpre).
    exists (t0 :: pre), post. split; [reflexivity|].
    intros t' [<-|Hin]; [now apply String.eqb_neq | now apply Hpre].
Qed.

(** The match is case-sensitive. *)
Example find_target_case_sensitive :
  find_target [mkTarget "D2" 0.9] "d2" = None.
Proof. reflexivity. Qed.

(** What line 16 assigns: the first matching target's affinity unless that
    is zero, the default otherwise. *)
Lemma lookup_affinity_spec (m : Molecule) (r : string) :
  match mol_targets m with
  | Some ts =>
      match find_target ts r with
      | Some t =>
          if Qeq_bool (affinity t) 0 then lookup_affinity m r = 0.05
          else lookup_affinity m r = affinity t
      | None => lookup_affinity m r = 0.05
      end
  | None => lookup_affinity m r = 0.05
  end.
Proof.
  unfold lookup_affinity, or_num, truthy_num.
  destruct (mol_targets m) as [ts|]; [|reflexivity].
  destruct (find_target ts r) as [t|]; [|reflexivity]. cbn.
  destruct (Qeq_bool (affinity t) 0); reflexivity.
Qed.

Lemma lookup_affinity_absent (m : Molecule) (r : string) :
  has_no_target m r -> lookup_affinity m r = 0.05.
Proof.
  unfold has_no_target. intros H. pose proof (lookup_affinity_spec m r) as S.
  destruct (mol_targets m) as [ts|]; [|exact S].
  apply find_target_None in H. rewrite H in S. exact S.
Qed.

Lemma lookup_affinity_range (m : Molecule) (r : string) :
  valid_molecule m -> 0 <= lookup_affinity m r <= 1.
Proof.
  unfold valid_molecule. intros V. pose proof (lookup_affinity_spec m r) as S.
  destruct (mol_targets m) as [ts|]; [|rewrite S; lra].
  destruct (find_target ts r) as [t|] eqn:F; [|rewrite S; lra].
  apply find_target_Some in F as [Hin _].
  rewrite Forall_forall in V.
  specialize (V t (proj2 (list_elem_of_In _ _) Hin)).
  destruct (Qeq_bool (affinity t) 0); rewrite S; lra.
Qed.

(** *** Arithmetic of the formula *)

Lemma scaled_draw_range (e : Q) :
  0 <= e < 1 -> 0.8 <= 0.8 + e * 0.6 < 1.4.
Proof. intros H. lra. Qed.

Lemma activation_range (a e : Q) :
  0 <= a -> 0 <= e < 1 ->
  0 <= Qmin 1 (a * (0.8 + e * 0.6)) <= 1.
Proof.
  intros Ha He. split.
  - apply Q.min_glb; [lra | nra].
  - apply Q.le_min_l.
Qed.

Lemma wave_unclamped (base scale act rnd : Q) :
  0 <= base -> 0 <= scale -> 0 <= act -> 0 <= rnd ->
  0 <= base + (act * scale) * rnd /\
  wave base scale act rnd == base + (act * scale) * rnd /\
  base <= wave base scale act rnd.
Proof.
  intros Hb Hs Ha Hr.
  assert (H0 : 0 <= (act * scale) * rnd).
  { apply Qmult_le_0_compat; [apply Qmult_le_0_compat|]; assumption. }
  assert (H1 : 0 <= base + (act * scale) * rnd) by lra.
  unfold wave. rewrite (Q.max_r _ _ H1). repeat split; lra.
Qed.

(** *** The call as a whole *)

Ltac effect_cases m r w :=
  let C := fresh "C" in
  pose proof (getSimulatedEffects_cases m r w) as C;
  destruct (globals w !! "constAffinity"); [|exact C];
  eexists _, _; split; [exact C|];
  cbv [effect_of activation brainwave delta theta alpha beta mood].

(** Start-up world: the call throws for a molecule that does list the
    receptor, and no value is drawn. *)
Example getSimulatedEffects_mol_d2 :
  getSimulatedEffects mol_d2 "D2" module_world
  = (Throw (ReferenceError "constAffinity"), module_world).
Proof. reflexivity. Qed.

(** C2.  [getSimulatedEffects] is neither error-free nor free of side
    effects.  Line 16 assigns to [constAffinity], an identifier declared
    nowhere: without a global property of that name the call throws a
    ReferenceError for every molecule and receptor; with one, the call
    overwrites that global property. *)
Theorem getSimulatedEffects_throws_or_writes
  (m : Molecule) (r : string) (w : World) :
  match globals w !! "constAffinity" with
  | None =>
      getSimulatedEffects m r w = (Throw (ReferenceError "constAffinity"), w)
  | Some _ =>
      exists res w',
        getSimulatedEffects m r w = (Ok res, w') /\
        globals w' = <["constAffinity" := lookup_affinity m r]> (globals w) /\
        drawn w' = (5 + drawn w)%nat
  end.
Proof.
  pose proof (getSimulatedEffects_cases m r w) as C.
  destruct (globals w !! "constAffinity"); [|exact C].
  eexists _, _. split; [exact C|]. split; reflexivity.
Qed.

(** C3, the claim as stated fails: [mol_zero] lists a D2 target, yet the
    default 0.05 is what the code takes for it. *)
Lemma default_taken_although_target_listed :
  ~ (lookup_affinity mol_zero "D2" == 0.05 <-> has_no_target mol_zero "D2").
Proof.
  intros [H _]. specialize (H ltac:(reflexivity)).
  apply (H (mkTarget "D2" 0)); [now left | reflexivity].
Qed.

(** C3 (amended).  When the call completes, the activation is computed from
    the affinity of the first target whose receptor is exactly [r], provided
    such a target exists and its affinity is not zero; from the default 0.05
    otherwise (no target list, no such target, or a listed affinity of 0). *)
Theorem getSimulatedEffects_affinity_taken
  (m : Molecule) (r : string) (w : World) (v : Q) :
  globals w !! "constAffinity" = Some v ->
  exists a res w',
    getSimulatedEffects m r w = (Ok res, w') /\
    activation res = Qmin 1 (a * (0.8 + entropy w (drawn w) * 0.6)) /\
    match mol_targets m with
    | Some ts =>
        match find_target ts r with
        | Some t =>
            (exists pre post, ts = pre ++ t :: post /\
                              forall t', In t' pre -> receptor t' <> r) /\
            receptor t = r /\
            a = (if Qeq_bool (affinity t) 0 then 0.05 else affinity t)
        | None => (forall t, In t ts -> receptor t <> r) /\ a = 0.05
        end
    | None => a = 0.05
    end.
Proof.
  intros H. exists (lookup_affinity m r).
  rewrite (getSimulatedEffects_bound m r w v H).
  eexists _, _. split; [reflexivity|]. split; [reflexivity|].
  pose proof (lookup_affinity_spec m r) as S.
  destruct (mol_targets m) as [ts|]; [|exact S].
  destruct (find_target ts r) as [t|] eqn:F.
  - split; [now apply find_target_first|].
    split; [now apply (find_target_Some ts r t)|].
    destruct (Qeq_bool (affinity t) 0); exact S.
  - split; [now apply find_target_None | exact S].
Qed.

Lemma getSimulatedEffects_affinity_taken_witness :
  exists a res w',
    getSimulatedEffects mol_d2 "D2" patched_world = (Ok res, w') /\
    activation res = Qmin 1 (a * (0.8 + 0.5 * 0.6)) /\
    ((exists pre post,
         [mkTarget "5-HT2A" 0.3; mkTarget "D2" 0.9]
         = pre ++ mkTarget "D2" 0.9 :: post /\
         forall t', In t' pre -> receptor t' <> "D2"%string) /\
     "D2"%string = "D2"%string /\ a = 0.9).
Proof.
  apply (getSimulatedEffects_affinity_taken mol_d2 "D2" patched_world 0).
  reflexivity.
Defined.

(** C5, the claim as stated fails at a listed affinity of 0: with the draw
    [r = 1.1] the activation is [0.05 * 1.1], not [min(1, 0 * 1.1)]. *)
Lemma activation_of_zero_affinity :
  exists t res w',
    find_target [mkTarget "D2" 0] "D2" = Some t /\
    0 <= affinity t <= 1 /\
    0.8 <= 0.8 + entropy patched_world 0%nat * 0.6 < 1.4 /\
    getSimulatedEffects mol_zero "D2" patched_world = (Ok res, w') /\
    ~ activation res
      == Qmin 1 (affinity t * (0.8 + entropy patched_world 0%nat * 0.6)).
Proof.
  eexists _, _, _. split; [reflexivity|]. cbn [affinity].
  split; [lra|]. split; [cbn; lra|].
  split; [now apply (getSimulatedEffects_bound mol_zero "D2" patched_world 0)|].
  vm_compute. discriminate.
Qed.

(** C5 (amended).  When the call completes, for a matched affinity [a] in
    [[0,1]] and a draw [r = 0.8 + rnd*0.6] (which lies in [[0.8,1.4)]), the
    activation lies in [[0,1]] and equals [min(1, a*r)] for [a] other than 0;
    a matched affinity of exactly 0 is replaced by the default 0.05. *)
Theorem getSimulatedEffects_activation
  (m : Molecule) (r : string) (w : World) (v : Q)
  (ts : list Target) (t : Target) :
  globals w !! "constAffinity" = Some v ->
  mol_targets m = Some ts ->
  find_target ts r = Some t ->
  0 <= affinity t <= 1 ->
  0 <= entropy w (drawn w) < 1 ->
  let rr := 0.8 + entropy w (drawn w) * 0.6 in
  let a := if Qeq_bool (affinity t) 0 then 0.05 else affinity t in
  0.8 <= rr < 1.4 /\
  exists res w',
    getSimulatedEffects m r w = (Ok res, w') /\
    activation res = Qmin 1 (a * rr) /\
    0 <= activation res <= 1.
Proof.
  intros H Hts F Ha He rr a. split; [now apply scaled_draw_range|].
  rewrite (getSimulatedEffects_bound m r w v H).
  eexists _, _. split; [reflexivity|].
  cbv [effect_of activation]. change (entropy w (0 + drawn w)%nat * 0.6)
    with (entropy w (drawn w) * 0.6).
  assert (L : lookup_affinity m r = a).
  { pose proof (lookup_affinity_spec m r) as S. rewrite Hts, F in S.
    unfold a. destruct (Qeq_bool (affinity t) 0); exact S. }
  rewrite L. split; [reflexivity|].
  apply activation_range; [|exact He].
  unfold a. destruct (Qeq_bool (affinity t) 0); lra.
Qed.

Lemma getSimulatedEffects_activation_witness :
  0.8 <= 0.8 + 0.5 * 0.6 < 1.4 /\
  exists res w',
    getSimulatedEffects mol_d2 "D2" patched_world = (Ok res, w') /\
    activation res = Qmin 1 (0.9 * (0.8 + 0.5 * 0.6)) /\
    0 <= activation res <= 1.
Proof.
  apply (getSimulatedEffects_activation mol_d2 "D2" patched_world 0
           [mkTarget "5-HT2A" 0.3; mkTarget "D2" 0.9] (mkTarget "D2" 0.9)).
  - reflexivity.
  - reflexivity.
  - reflexivity.
  - cbn [affinity]. lra.
  - cbn. lra.
Defined.

(** Start-up world: the call throws for a molecule without targets too. *)
Example getSimulatedEffects_mol_bare :
  getSimulatedEffects mol_bare "GABA-A" module_world
  = (Throw (ReferenceError "constAffinity"), module_world).
Proof. reflexivity. Qed.

(** C6.  For a molecule that does not list [r], the call does not deliver
    the specified result: in the start-up environment it throws (the
    undeclared assignment of line 16).  Only where the global object has a
    property [constAffinity] is the default 0.05 taken, the activation within
    [[0, 0.07]] and the mood ["neutral"]. *)
Theorem getSimulatedEffects_unlisted_receptor
  (m : Molecule) (r : string) (w : World) :
  has_no_target m r ->
  0 <= entropy w (drawn w) < 1 ->
  match globals w !! "constAffinity" with
  | None =>
      getSimulatedEffects m r w = (Throw (ReferenceError "constAffinity"), w)
  | Some _ =>
      exists res w',
        getSimulatedEffects m r w = (Ok res, w') /\
        activation res = Qmin 1 (0.05 * (0.8 + entropy w (drawn w) * 0.6)) /\
        0 <= activation res <= 0.07 /\
        mood res = "neutral"%string
  end.
Proof.
  intros Hno He. effect_cases m r w.
  rewrite (lookup_affinity_absent m r Hno).
  change (entropy w (0 + drawn w)%nat) with (entropy w (drawn w)).
  set (act := Qmin 1 (0.05 * (0.8 + entropy w (drawn w) * 0.6))).
  assert (Hact : 0 <= act <= 0.07).
  { split.
    - apply Q.min_glb; lra.
    - eapply Qle_trans; [apply Q.le_min_r|]. lra. }
  split; [reflexivity|]. split; [exact Hact|].
  destruct (Qlt_le_dec 0.4 act) as [L|L]; [lra | reflexivity].
Qed.

Lemma getSimulatedEffects_unlisted_receptor_witness :
  getSimulatedEffects mol_bare "D2" module_world
  = (Throw (ReferenceError "constAffinity"), module_world).
Proof.
  apply (getSimulatedEffects_unlisted_receptor mol_bare "D2" module_world).
  - exact I.
  - cbn. lra.
Defined.

(** C7.  The brainwave components are not delivered on every call: in the
    start-up environment the call throws before any of them is computed (the
    undeclared assignment of line 16).  Where the call completes, each
    component is [max(0, base + activation*scale*r_i)] for its own draw, with
    the pairs (0.1, 0.1), (0.1, 0.08), (0.2, 0.12), (0.15, 0.09). *)
Theorem getSimulatedEffects_brainwave
  (m : Molecule) (r : string) (w : World) :
  match globals w !! "constAffinity" with
  | None =>
      getSimulatedEffects m r w = (Throw (ReferenceError "constAffinity"), w)
  | Some _ =>
      exists res w',
        getSimulatedEffects m r w = (Ok res, w') /\
        let act := activation res in
        let bw := brainwave res in
        let e i := entropy w (i + drawn w)%nat in
        delta bw = Qmax 0 (0.1 + act * 0.1 * e 1%nat) /\
        theta bw = Qmax 0 (0.1 + act * 0.08 * e 2%nat) /\
        alpha bw = Qmax 0 (0.2 + act * 0.12 * e 3%nat) /\
        beta bw = Qmax 0 (0.15 + act * 0.09 * e 4%nat)
  end.
Proof.
  effect_cases m r w. repeat split.
Qed.

(** C10.  The brainwave components are not delivered on every call (same
    defect as above: the start-up environment makes line 16 throw).  Where
    the call completes on a well-formed molecule and draws in [[0,1)], each
    component is at least its base and the sum under [max(0, .)] is already
    non-negative. *)
Theorem getSimulatedEffects_brainwave_floor
  (m : Molecule) (r : string) (w : World) :
  valid_molecule m ->
  (forall i, 0 <= entropy w i < 1) ->
  match globals w !! "constAffinity" with
  | None =>
      getSimulatedEffects m r w = (Throw (ReferenceError "constAffinity"), w)
  | Some _ =>
      exists res w',
        getSimulatedEffects m r w = (Ok res, w') /\
        let act := activation res in
        let bw := brainwave res in
        let e i := entropy w (i + drawn w)%nat in
        (0.1 <= delta bw /\ 0.1 <= theta bw /\
         0.2 <= alpha bw /\ 0.15 <= beta bw) /\
        (0 <= 0.1 + act * 0.1 * e 1%nat /\
         0 <= 0.1 + act * 0.08 * e 2%nat /\
         0 <= 0.2 + act * 0.12 * e 3%nat /\
         0 <= 0.15 + act * 0.09 * e 4%nat)
  end.
Proof.
  intros V He. effect_cases m r w.
  pose proof (lookup_affinity_range m r V) as [La _].
  pose proof (activation_range (lookup_affinity m r)
                (entropy w (0 + drawn w)%nat) La (He _)) as [A0 _].
  set (act := Qmin 1 _) in *.
  assert (W : forall base scale i, 0 <= base -> 0 <= scale ->
              0 <= base + act * scale * entropy w i /\
              base <= wave base scale act (entropy w i)).
  { intros base scale i Hb Hs.
    destruct (wave_unclamped base scale act (entropy w i) Hb Hs A0
                (proj1 (He i))) as (U & _ & G).
    split; assumption. }
  repeat split; apply W; lra.
Qed.

Lemma getSimulatedEffects_brainwave_floor_witness :
  getSimulatedEffects mol_d2 "D2" module_world
  = (Throw (ReferenceError "constAffinity"), module_world).
Proof.
  apply (getSimulatedEffects_brainwave_floor mol_d2 "D2" module_world).
  - repeat constructor; cbn; lra.
  - intros i. cbn. lra.
Defined.

(** ** The bench and the two interaction flows *)

Lemma or_str_present (c d : string) : c <> ""%string -> or_str (Some c) d = c.
Proof.
  intros H. unfold or_str, truthy_str.
  apply String.eqb_neq in H. now rewrite H.
Qed.

Lemma truthy_str_nonempty (s : string) :
  s <> ""%string -> truthy_str s = true.
Proof.
  intros H. unfold truthy_str. apply String.eqb_neq in H. now rewrite H.
Qed.

Lemma find_molecule_none (id : string) (ms : list Molecule) :
  (forall m, In m ms -> mol_id m <> id) ->
  List.find (fun m => String.eqb (mol_id m) id) ms = None.
Proof.
  induction ms as [|m ms IH]; intros H; [reflexivity|]. cbn.
  destruct (String.eqb (mol_id m) id) eqn:E.
  - apply String.eqb_eq in E. exfalso. apply (H m); [now left | exact E].
  - apply IH. intros m' Hin. apply H. now right.
Qed.

Lemma beaker_at_nat (bs : list Beaker) (i : nat) :
  beaker_at bs (Z.of_nat i) = bs !! i.
Proof.
  unfold beaker_at.
  destruct (Z.ltb_spec (Z.of_nat i) 0) as [L|L]; [lia|].
  now rewrite Nat2Z.id.
Qed.

Section BenchFacts.

Variable colorOfStyle : string -> Color.

(** Adding to an existing beaker: that slot, and only that slot, of the
    array changes; one sphere and one summary go to the backends. *)
Lemma addMoleculeToBeaker_slot
  (mol : Molecule) (c : string) (w : World) (i : nat) (b : Beaker) :
  mol_color mol = Some c ->
  c <> ""%string ->
  beakers w !! i = Some b ->
  exists w',
    addMoleculeToBeaker colorOfStyle mol (Z.of_nat i) w = (Ok tt, w') /\
    beakers w' = <[i := blended colorOfStyle mol c b]> (beakers w) /\
    molecules w' = molecules w /\
    globals w' = globals w /\
    drawn w' = drawn w /\
    length (sink w') = (2 + length (sink w))%nat.
Proof.
  intros Hc Hne Hb. unfold addMoleculeToBeaker.
  rewrite beaker_at_nat, Hb, Hc, Nat2Z.id.
  rewrite !(or_str_present c _ Hne).
  destruct (position b) as [[px py] pz] eqn:P.
  eexists. split; [reflexivity|].
  cbn [beakers molecules globals drawn sink set_sink set_beakers].
  unfold blended. rewrite P.
  repeat split. rewrite !length_app. cbn. lia.
Qed.

(** The beaker count never changes, so the drop index of a coordinate is
    the same before and after an addition. *)
Lemma addMoleculeToBeaker_count (mol : Molecule) (idx : Z) (w : World) :
  length (beakers (snd (addMoleculeToBeaker colorOfStyle mol idx w)))
  = length (beakers w).
Proof.
  unfold addMoleculeToBeaker.
  destruct (beaker_at (beakers w) idx) as [b|]; [|reflexivity].
  destruct (position b) as [[px py] pz].
  cbn. apply length_insert.
Qed.

(** C4.  For a molecule with a colour [c], [addMoleculeToBeaker] appends the
    molecule to the beaker's contents and moves the liquid colour to
    [lerp(currentColor, c, 0.2)], one step per addition; and on a bench of
    three beakers a drop at normalized [x = -1] goes to beaker 0, whose
    colour becomes [lerp(itsColor, c, 0.2)] (the claim's [#ff0000] being one
    such [c]). *)
Theorem addMoleculeToBeaker_appends_and_blends (mol : Molecule) (c : string) :
  mol_color mol = Some c ->
  c <> ""%string ->
  (forall (w : World) (i : nat) (b : Beaker),
      beakers w !! i = Some b ->
      exists w',
        addMoleculeToBeaker colorOfStyle mol (Z.of_nat i) w = (Ok tt, w') /\
        beakers w' !! i
        = Some {| position := position b;
                  liquid := lerp (liquid b) (colorOfStyle c) 0.2;
                  contents := contents b ++ [mol] |} /\
        forall j, j <> i -> beakers w' !! j = beakers w !! j)
  /\
  (forall (w : World) (ev : DropEvent) (b0 b1 b2 : Beaker),
      beakers w = [b0; b1; b2] ->
      payload ev <> ""%string ->
      List.find (fun m => String.eqb (mol_id m) (payload ev)) (molecules w)
      = Some mol ->
      normalizedX ev == -1 ->
      exists w',
        onDrop colorOfStyle ev w = (Ok tt, w') /\
        beakers w'
        = [ {| position := position b0;
               liquid := lerp (liquid b0) (colorOfStyle c) 0.2;
               contents := contents b0 ++ [mol] |}; b1; b2 ]).
Proof.
  intros Hc Hne. split.
  - intros w i b Hb.
    destruct (addMoleculeToBeaker_slot mol c w i b Hc Hne Hb)
      as (w' & Hrun & Hbs & _).
    exists w'. split; [exact Hrun|]. rewrite Hbs. split.
    + apply list_lookup_insert_eq. now apply lookup_lt_Some with b.
    + intros j Hj. now apply list_lookup_insert_ne.
  - intros w ev b0 b1 b2 Hbs Hp Hfind Hx.
    unfold onDrop. rewrite (truthy_str_nonempty _ Hp), Hfind. cbn [negb].
    rewrite Hbs. cbn [length].
    rewrite (resolveDropTarget_comp 3 _ (-1) Hx).
    change (resolveDropTarget 3 (-1)) with (Z.of_nat 0).
    destruct (addMoleculeToBeaker_slot mol c w 0 b0 Hc Hne)
      as (w' & Hrun & Hbs' & _); [now rewrite Hbs|].
    exists w'. split; [exact Hrun|]. rewrite Hbs', Hbs. reflexivity.
Qed.

(** C9.  A drop whose payload is empty or names no catalog molecule, and a
    receptor prompt that was cancelled or left empty, end the handler with
    the whole program state as it was: no beaker touched, no effect computed
    (no draw consumed, no global written), nothing handed to a backend. *)
Theorem aborted_flows_leave_state
  (ev : DropEvent) (mol : Molecule) (answer : option string) (w : World) :
  (payload ev = ""%string \/
   forall m, In m (molecules w) -> mol_id m <> payload ev) ->
  (answer = None \/ answer = Some ""%string) ->
  onDrop colorOfStyle ev w = (Ok tt, w) /\
  showReceptorDialog mol answer w = (Ok tt, w).
Proof.
  intros Hdrop Hpick. split.
  - unfold onDrop. destruct (truthy_str (payload ev)) eqn:T; [|reflexivity].
    cbn [negb]. destruct Hdrop as [E|Hnone].
    + rewrite E in T. discriminate.
    + now rewrite (find_molecule_none _ _ Hnone).
  - destruct Hpick as [-> | ->]; reflexivity.
Qed.

End BenchFacts.

Lemma addMoleculeToBeaker_appends_and_blends_witness :
  exists w',
    onDrop demo_colorOfStyle drop_left_edge module_world = (Ok tt, w') /\
    beakers w'
    = [ {| position := (-4 + inject_Z 0 * 4, 0.8, 0);
           liquid := lerp (demo_colorOfHex 0x66c2ff)
                          (demo_colorOfStyle "#ff0000") 0.2;
           contents := [mol_d2] |};
        {| position := (-4 + inject_Z 1 * 4, 0.8, 0);
           liquid := demo_colorOfHex 0x66c2ff; contents := [] |};
        {| position := (-4 + inject_Z 2 * 4, 0.8, 0);
           liquid := demo_colorOfHex 0x66c2ff; contents := [] |} ].
Proof.
  destruct (addMoleculeToBeaker_appends_and_blends demo_colorOfStyle
              mol_d2 "#ff0000" eq_refl ltac:(discriminate)) as [_ Hdrop].
  apply (Hdrop module_world drop_left_edge
           (mkBeaker (-4 + inject_Z 0 * 4, 0.8, 0) (demo_colorOfHex 0x66c2ff) [])
           (mkBeaker (-4 + inject_Z 1 * 4, 0.8, 0) (demo_colorOfHex 0x66c2ff) [])
           (mkBeaker (-4 + inject_Z 2 * 4, 0.8, 0) (demo_colorOfHex 0x66c2ff) [])).
  - reflexivity.
  - discriminate.
  - reflexivity.
  - reflexivity.
Defined.

Lemma aborted_flows_leave_state_witness :
  (onDrop demo_colorOfStyle drop_empty module_world = (Ok tt, module_world) /\
   showReceptorDialog mol_d2 None module_world = (Ok tt, module_world)) /\
  (onDrop demo_colorOfStyle drop_stale module_world = (Ok tt, module_world) /\
   showReceptorDialog mol_d2 (Some ""%string) module_world
   = (Ok tt, module_world)).
Proof.
  split.
  - apply (aborted_flows_leave_state demo_colorOfStyle drop_empty mol_d2 None
             module_world); left; reflexivity.
  - apply (aborted_flows_leave_state demo_colorOfStyle drop_stale mol_d2
             (Some ""%string) module_world); right; [|reflexivity].
    intros m [<-|[<-|[<-|[]]]]; discriminate.
Defined.

(* ================================================================== *)
(** * Further properties of the code *)
(* ================================================================== *)

(** ** Where a drop lands *)

Lemma Math_round_below (v : Q) (k : Z) :
  v + 0.5 < inject_Z k -> (Math_round v < k)%Z.
Proof.
  intros H. unfold Math_round.
  destruct (Z_lt_le_dec (Qfloor (v + 0.5)) k) as [L|L]; [exact L|].
  exfalso. apply (Qlt_irrefl (v + 0.5)).
  eapply Qlt_le_trans; [exact H|].
  eapply Qle_trans; [|apply Qfloor_le]. now rewrite <- Zle_Qle.
Qed.

Lemma Math_round_above (v : Q) (k : Z) :
  inject_Z k <= v + 0.5 -> (k <= Math_round v)%Z.
Proof.
  intros H. unfold Math_round.
  rewrite <- (Qfloor_Z k). now apply Qfloor_resp_le.
Qed.

Lemma Math_round_mono (u v : Q) :
  u <= v -> (Math_round u <= Math_round v)%Z.
Proof.
  intros H. unfold Math_round. apply Qfloor_resp_le. lra.
Qed.

(** The index on three beakers, for any coordinate. *)
Lemma resolveDropTarget_thirds (x : Q) :
  resolveDropTarget 3 x =
    (if Qlt_le_dec x (-2 # 3) then 0
     else if Qlt_le_dec x 0 then 1 else 2)%Z.
Proof.
  unfold resolveDropTarget, Math_min, Math_max.
  set (v := (x + 1) * 1.5).
  destruct (Qlt_le_dec x (-2 # 3)) as [H1|H1];
    [|destruct (Qlt_le_dec x 0) as [H2|H2]].
  - pose proof (Math_round_below v 1) as B.
    assert (Math_round v < 1)%Z by (apply B; unfold v, inject_Z; lra). lia.
  - pose proof (Math_round_below v 2) as B.
    pose proof (Math_round_above v 1) as A.
    assert (Math_round v < 2)%Z by (apply B; unfold v, inject_Z; lra).
    assert (1 <= Math_round v)%Z by (apply A; unfold v, inject_Z; lra). lia.
  - pose proof (Math_round_above v 2) as A.
    assert (2 <= Math_round v)%Z by (apply A; unfold v, inject_Z; lra). lia.
Qed.

(** X1.  On three beakers the drop index splits the whole line, not only the
    canvas, into three unequal parts: a drop goes to the left beaker exactly
    when [x < -2/3], to the middle one exactly when [-2/3 <= x < 0], and to
    the right one exactly when [0 <= x]. *)
Theorem resolveDropTarget_three_partition (x : Q) :
  (resolveDropTarget 3 x = 0%Z <-> x < -2 # 3) /\
  (resolveDropTarget 3 x = 1%Z <-> -2 # 3 <= x < 0) /\
  (resolveDropTarget 3 x = 2%Z <-> 0 <= x).
Proof.
  rewrite resolveDropTarget_thirds.
  destruct (Qlt_le_dec x (-2 # 3)) as [H1|H1];
    [|destruct (Qlt_le_dec x 0) as [H2|H2]];
    repeat split; intros; try discriminate; try lra; try reflexivity.
Qed.

(** X2.  The drop index never decreases when the drop moves to the right,
    whatever the number of beakers. *)
Theorem resolveDropTarget_monotone (n : nat) (x y : Q) :
  x <= y -> (resolveDropTarget n x <= resolveDropTarget n y)%Z.
Proof.
  intros H. unfold resolveDropTarget, Math_min, Math_max.
  assert (Math_round ((x + 1) * 1.5) <= Math_round ((y + 1) * 1.5))%Z
    by (apply Math_round_mono; lra).
  lia.
Qed.

Lemma resolveDropTarget_monotone_witness :
  (resolveDropTarget 3 (-0.5) <= resolveDropTarget 3 0.25)%Z.
Proof. apply (resolveDropTarget_monotone 3 (-0.5) 0.25). lra. Defined.

(** ** What a drop does to the bench *)

Lemma fold_left_lengths (bs : list Beaker) (a : nat) :
  fold_left (fun acc b => (acc + length (contents b))%nat) bs a
  = (a + totalContents bs)%nat.
Proof.
  unfold totalContents. revert a.
  induction bs as [|b bs IH]; intros a; cbn; [lia|].
  rewrite IH, (IH (length (contents b))). lia.
Qed.

Lemma totalContents_cons (b : Beaker) (bs : list Beaker) :
  totalContents (b :: bs) = (length (contents b) + totalContents bs)%nat.
Proof.
  unfold totalContents at 1. cbn. apply fold_left_lengths.
Qed.

Lemma totalContents_insert (bs : list Beaker) (i : nat) (b b' : Beaker) :
  bs !! i = Some b ->
  length (contents b') = S (length (contents b)) ->
  totalContents (<[i := b']> bs) = S (totalContents bs).
Proof.
  revert i. induction bs as [|b0 bs IH]; intros i Hb Hlen; [discriminate|].
  destruct i as [|i]; cbn in Hb.
  - injection Hb as ->.
    change (<[0%nat := b']> (b :: bs)) with (b' :: bs).
    rewrite !totalContents_cons. lia.
  - change (<[S i := b']> (b0 :: bs)) with (b0 :: <[i := b']> bs).
    rewrite !totalContents_cons, (IH i Hb Hlen). lia.
Qed.

Lemma beaker_at_Some (bs : list Beaker) (idx : Z) (b : Beaker) :
  beaker_at bs idx = Some b ->
  idx = Z.of_nat (Z.to_nat idx) /\ bs !! Z.to_nat idx = Some b.
Proof.
  unfold beaker_at. destruct (Z.ltb_spec idx 0) as [L|L]; [discriminate|].
  intros H. split; [lia | exact H].
Qed.

Section DropFacts.

Variable colorOfStyle : string -> Color.

(** Everything one call of [addMoleculeToBeaker] does. *)
Lemma addMoleculeToBeaker_outcome (mol : Molecule) (idx : Z) (w : World) :
  match beaker_at (beakers w) idx with
  | None =>
      addMoleculeToBeaker colorOfStyle mol idx w
      = (Throw (TypeError "beaker.contents"), w)
  | Some b =>
      exists w',
        addMoleculeToBeaker colorOfStyle mol idx w = (Ok tt, w') /\
        beakers w'
        = <[Z.to_nat idx := beaker_plus colorOfStyle mol b]> (beakers w) /\
        sink w'
        = sink w ++
          [SceneAddSphere (or_str (mol_color mol) "#f2f2f2")
                          (or_str (mol_color mol) "#303030")
                          (sphere_pos b (S (length (contents b))));
           SummaryPlaced (S (totalContents (beakers w)))] /\
        molecules w' = molecules w /\
        globals w' = globals w /\
        drawn w' = drawn w /\
        entropy w' = entropy w
  end.
Proof.
  unfold addMoleculeToBeaker.
  destruct (beaker_at (beakers w) idx) as [b|] eqn:E; [|reflexivity].
  apply beaker_at_Some in E as [_ Hb].
  unfold sphere_pos. destruct (position b) as [[px py] pz] eqn:P.
  eexists. split; [reflexivity|].
  cbn [beakers molecules globals drawn entropy sink set_sink set_beakers].
  split; [unfold beaker_plus; now rewrite P|].
  split; [|repeat split].
  rewrite <- app_assoc. cbn [app]. do 3 f_equal.
  - now rewrite length_app, Nat.add_1_r.
  - f_equal. apply (totalContents_insert _ _ b); [exact Hb|].
    cbn. now rewrite length_app, Nat.add_1_r.
Qed.

(** One run of the drop handler: either nothing changes, or one beaker of
    the array is replaced by itself plus the molecule. *)
Lemma onDrop_step (ev : DropEvent) (w : World) :
  let w' := snd (onDrop colorOfStyle ev w) in
  (w' = w /\ (names_molecule (molecules w) ev = false \/ beakers w = []))
  \/
  (names_molecule (molecules w) ev = true /\
   exists mol i b,
     In mol (molecules w) /\
     beakers w !! i = Some b /\
     beakers w' = <[i := beaker_plus colorOfStyle mol b]> (beakers w) /\
     molecules w' = molecules w /\
     globals w' = globals w /\
     drawn w' = drawn w /\
     entropy w' = entropy w).
Proof.
  unfold onDrop, names_molecule.
  destruct (truthy_str (payload ev)); cbn [negb andb];
    [|left; split; [reflexivity | now left]].
  destruct (find _ (molecules w)) as [mol|] eqn:F;
    [|left; split; [reflexivity | now left]].
  pose proof (addMoleculeToBeaker_outcome mol
                (resolveDropTarget (length (beakers w)) (normalizedX ev)) w)
    as O.
  destruct (beaker_at _ _) as [b|] eqn:E.
  - right. split; [reflexivity|].
    destruct O as (w' & -> & Hbs & _ & Hm & Hg & Hd & He).
    apply beaker_at_Some in E as [_ Hb].
    exists mol,
      (Z.to_nat (resolveDropTarget (length (beakers w)) (normalizedX ev))), b.
    apply find_some in F as [Hin _].
    cbn [snd]. repeat split; assumption.
  - left. rewrite O. split; [reflexivity|]. right.
    destruct (beakers w) as [|b0 bs] eqn:B; [reflexivity|].
    exfalso. pose proof (resolveDropTarget_range (length (b0 :: bs))
                           (normalizedX ev) ltac:(cbn; lia)) as R.
    unfold beaker_at in E.
    destruct (Z.ltb_spec (resolveDropTarget (length (b0 :: bs))
                            (normalizedX ev)) 0) as [L|L]; [lia|].
    apply lookup_ge_None in E. lia.
Qed.

(** A drop that names a catalog molecule, on a bench that has beakers. *)
Lemma onDrop_known (ev : DropEvent) (mol : Molecule) (w : World) :
  beakers w <> [] ->
  payload ev <> ""%string ->
  List.find (fun m => String.eqb (mol_id m) (payload ev)) (molecules w)
  = Some mol ->
  exists (i : nat) (b : Beaker) (w' : World),
    resolveDropTarget (length (beakers w)) (normalizedX ev) = Z.of_nat i /\
    beakers w !! i = Some b /\
    onDrop colorOfStyle ev w = (Ok tt, w') /\
    beakers w' = <[i := beaker_plus colorOfStyle mol b]> (beakers w) /\
    totalContents (beakers w') = S (totalContents (beakers w)) /\
    sink w'
    = sink w ++
      [SceneAddSphere (or_str (mol_color mol) "#f2f2f2")
                      (or_str (mol_color mol) "#303030")
                      (sphere_pos b (S (length (contents b))));
       SummaryPlaced (S (totalContents (beakers w)))].
Proof.
  intros Hne Hp Hfind.
  set (idx := resolveDropTarget (length (beakers w)) (normalizedX ev)).
  assert (R : (0 <= idx <= Z.of_nat (length (beakers w)) - 1)%Z).
  { apply resolveDropTarget_range. destruct (beakers w); [contradiction|].
    cbn. lia. }
  destruct (lookup_lt_is_Some_2 (beakers w) (Z.to_nat idx) ltac:(lia))
    as [b Hb].
  pose proof (addMoleculeToBeaker_outcome mol idx w) as O.
  assert (E : beaker_at (beakers w) idx = Some b).
  { unfold beaker_at. destruct (Z.ltb_spec idx 0); [lia | exact Hb]. }
  rewrite E in O. destruct O as (w' & Hrun & Hbs & Hsink & _).
  exists (Z.to_nat idx), b, w'.
  split; [lia|]. split; [exact Hb|]. split.
  - unfold onDrop. rewrite (truthy_str_nonempty _ Hp), Hfind. exact Hrun.
  - split; [exact Hbs|]. split; [|exact Hsink].
    rewrite Hbs. apply (totalContents_insert _ _ b); [exact Hb|].
    cbn. now rewrite length_app, Nat.add_1_r.
Qed.



End DropFacts.



(** ** Any number of drops *)

Lemma lerp_in_gamut (a b : Color) :
  in_gamut a -> in_gamut b -> in_gamut (lerp a b 0.2).
Proof.
  unfold in_gamut, lerp. cbn [cr cg cb].
  intros (Ar & Ag & Ab) (Br & Bg & Bb). repeat split; lra.
Qed.

Lemma find_first {A : Type} (f : A -> bool) (l : list A) (x : A) :
  List.find f l = Some x ->
  exists pre post,
    l = pre ++ x :: post /\ f x = true /\
    forall y, In y pre -> f y = false.
Proof.
  induction l as [|a l IH]; [discriminate|]. cbn.
  destruct (f a) eqn:E.
  - intros [= <-]. exists [], l. repeat split; [exact E|]. intros y [].
  - intros H. destruct (IH H) as (pre & post & -> & Hx & Hpre).
    exists (a :: pre), post. repeat split; [exact Hx|].
    intros y [<-|Hin]; [exact E | now apply Hpre].
Qed.

Lemma find_molecule_in (m : Molecule) (ms : list Molecule) :
  In m ms ->
  exists m0,
    List.find (fun m' => String.eqb (mol_id m') (mol_id m)) ms = Some m0 /\
    In m0 ms /\ mol_id m0 = mol_id m.
Proof.
  intros Hin.
  destruct (find (fun m' => String.eqb (mol_id m') (mol_id m)) ms)
    as [m0|] eqn:F.
  - exists m0. apply find_some in F as [H1 H2].
    apply String.eqb_eq in H2. repeat split; assumption.
  - exfalso. pose proof (find_none _ _ F m Hin) as Hf. cbv beta in Hf.
    now rewrite String.eqb_refl in Hf.
Qed.

Lemma unique_id (ms : list Molecule) (a b : Molecule) :
  List.NoDup (map mol_id ms) ->
  In a ms -> In b ms -> mol_id a = mol_id b -> a = b.
Proof.
  induction ms as [|m ms IH]; intros N Ha Hb E; [destruct Ha|].
  cbn in N. apply NoDup_cons_iff in N as [Hnot N].
  destruct Ha as [->|Ha], Hb as [->|Hb].
  - reflexivity.
  - exfalso. apply Hnot. rewrite E. now apply in_map.
  - exfalso. apply Hnot. rewrite <- E. now apply in_map.
  - now apply IH.
Qed.

Section DropSequences.

Variable colorOfStyle : string -> Color.

Lemma after_drops_cons (ev : DropEvent) (evs : list DropEvent) (w : World) :
  after_drops colorOfStyle (ev :: evs) w
  = after_drops colorOfStyle evs (snd (onDrop colorOfStyle ev w)).
Proof. reflexivity. Qed.


(** X6.  On a bench with at least one beaker, after any sequence of drop
    events on a canvas of positive width the beakers hold, in total, what
    they held before plus one molecule for every event that named a catalog
    molecule; the number of beakers and the catalog are what they were. *)
Theorem after_drops_total (evs : list DropEvent) (w : World) :
  beakers w <> [] ->
  Forall (fun ev => 0 < rect_width ev) evs ->
  let w' := after_drops colorOfStyle evs w in
  totalContents (beakers w')
  = (totalContents (beakers w)
     + length (List.filter (names_molecule (molecules w)) evs))%nat /\
  length (beakers w') = length (beakers w) /\
  molecules w' = molecules w.
Proof.
  intros Hne _. revert w Hne.
  induction evs as [|ev evs IH]; intros w Hne.
  - cbn. repeat split. lia.
  - cbv zeta. rewrite after_drops_cons.
    destruct (onDrop_step colorOfStyle ev w)
      as [[Hsame [Hno|Hempty]] | (Hyes & mol & i & b & _ & Hb & Hbs &
                                  Hm & _)].
    + rewrite Hsame. cbn [List.filter]. rewrite Hno. now apply IH.
    + contradiction.
    + set (w1 := snd (onDrop colorOfStyle ev w)) in *.
      assert (Hlen : length (beakers w1) = length (beakers w))
        by (rewrite Hbs; apply length_insert).
      assert (Hne1 : beakers w1 <> []).
      { intros E. rewrite E in Hlen. destruct (beakers w); [|discriminate].
        contradiction. }
      destruct (IH w1 Hne1) as (T & L & Mo).
      cbn [List.filter]. rewrite Hyes. cbn [length].
      rewrite T, L, Mo, Hm, Hlen.
      repeat split.
      rewrite Hbs, (totalContents_insert _ _ b
                      (beaker_plus colorOfStyle mol b) Hb).
      * lia.
      * cbn. now rewrite length_app, Nat.add_1_r.
Qed.

(** X7.  Beakers are append-only: after any sequence of drop events every
    beaker is still at its index and position, its earlier contents come
    first and in the same order, and whatever was added is a catalog
    molecule. *)
Theorem after_drops_append_only
  (evs : list DropEvent) (w : World) (i : nat) (b : Beaker) :
  beakers w !! i = Some b ->
  exists (b' : Beaker) (added : list Molecule),
    beakers (after_drops colorOfStyle evs w) !! i = Some b' /\
    position b' = position b /\
    contents b' = contents b ++ added /\
    forall m, In m added -> In m (molecules w).
Proof.
  revert w b. induction evs as [|ev evs IH]; intros w b Hb.
  - exists b, []. cbn. rewrite app_nil_r. repeat split; [exact Hb|].
    intros m [].
  - rewrite after_drops_cons.
    destruct (onDrop_step colorOfStyle ev w)
      as [[Hsame _] | (_ & mol & j & bj & Hin & Hbj & Hbs & Hm & _)].
    + rewrite Hsame. now apply IH.
    + set (w1 := snd (onDrop colorOfStyle ev w)) in *.
      destruct (Nat.eq_dec j i) as [->|Hji].
      * assert (Hb1 : beakers w1 !! i
                      = Some (beaker_plus colorOfStyle mol bj)).
        { rewrite Hbs. apply list_lookup_insert_eq.
          now apply lookup_lt_Some with bj. }
        rewrite Hb in Hbj. injection Hbj as <-.
        destruct (IH w1 _ Hb1) as (b' & added & L & P & C & A).
        exists b', (mol :: added). split; [exact L|].
        split; [exact P|]. split.
        -- rewrite C. cbn [beaker_plus contents].
           now rewrite <- app_assoc.
        -- intros m [<-|Hm']; [exact Hin|]. rewrite <- Hm. now apply A.
      * assert (Hb1 : beakers w1 !! i = Some b).
        { rewrite Hbs, list_lookup_insert_ne; [exact Hb | exact Hji]. }
        destruct (IH w1 _ Hb1) as (b' & added & L & P & C & A).
        exists b', added. repeat split; try assumption.
        intros m Hm'. rewrite <- Hm. now apply A.
Qed.

(** X8.  If the colour parser only yields colours with channels in [[0,1]]
    and every beaker's liquid starts that way, it stays that way through any
    sequence of drop events (the blend being the linear interpolation
    modelled by [lerp]). *)
Theorem after_drops_in_gamut (evs : list DropEvent) (w : World) :
  (forall s, in_gamut (colorOfStyle s)) ->
  Forall (fun b => in_gamut (liquid b)) (beakers w) ->
  Forall (fun b => in_gamut (liquid b))
         (beakers (after_drops colorOfStyle evs w)).
Proof.
  intros Hcs. revert w. induction evs as [|ev evs IH]; intros w Hw;
    [exact Hw|].
  rewrite after_drops_cons. apply IH.
  destruct (onDrop_step colorOfStyle ev w)
    as [[Hsame _] | (_ & mol & j & bj & _ & Hbj & Hbs & _)].
  - now rewrite Hsame.
  - rewrite Hbs. apply Forall_insert; [exact Hw|].
    cbn [beaker_plus liquid]. apply lerp_in_gamut; [|apply Hcs].
    exact (Forall_lookup_1 _ _ _ _ Hw Hbj).
Qed.

(** X9.  Drag and drop round trip, on a canvas of positive width: dropping
    the payload that [dragstart] set for a catalog molecule with a non-empty
    id adds to a beaker the first molecule in catalog order that has that id
    (no earlier catalog entry has it); when ids are unique it is the dragged
    molecule itself. *)
Theorem drag_then_drop (m : Molecule) (ev : DropEvent) (w : World) :
  0 < rect_width ev ->
  In m (molecules w) ->
  mol_id m <> ""%string ->
  beakers w <> [] ->
  payload ev = onDragStart m ->
  exists (m0 : Molecule) (pre post : list Molecule)
         (i : nat) (b : Beaker) (w' : World),
    molecules w = pre ++ m0 :: post /\
    (forall m', In m' pre -> mol_id m' <> mol_id m) /\
    mol_id m0 = mol_id m /\
    (List.NoDup (map mol_id (molecules w)) -> m0 = m) /\
    beakers w !! i = Some b /\
    onDrop colorOfStyle ev w = (Ok tt, w') /\
    beakers w' = <[i := beaker_plus colorOfStyle m0 b]> (beakers w).
Proof.
  intros _ Hin Hid Hne Hp. unfold onDragStart in Hp.
  destruct (find_molecule_in m (molecules w) Hin) as (m0 & F & Hin0 & E).
  destruct (find_first _ _ _ F) as (pre & post & Hms & _ & Hpre).
  rewrite <- Hp in F, Hid.
  destruct (onDrop_known colorOfStyle ev m0 w Hne Hid F)
    as (i & b & w' & _ & Hb & Hrun & Hbs & _).
  exists m0, pre, post, i, b, w'. split; [exact Hms|]. split.
  { intros m' Hm'. specialize (Hpre m' Hm'). cbv beta in Hpre.
    now apply String.eqb_neq. }
  repeat split; try assumption.
  intros N. now apply (unique_id (molecules w)).
Qed.


End DropSequences.


Lemma demo_colorOfHex_in_gamut :
  in_gamut (demo_colorOfHex 0xff0000) /\
  in_gamut (demo_colorOfHex 0x00ff00) /\
  in_gamut (demo_colorOfHex 0x66c2ff).
Proof. unfold in_gamut. repeat split; vm_compute; discriminate. Qed.

Lemma demo_colorOfStyle_in_gamut (s : string) :
  in_gamut (demo_colorOfStyle s).
Proof.
  unfold demo_colorOfStyle.
  destruct demo_colorOfHex_in_gamut as (R & G & B).
  destruct (String.eqb s "#ff0000"); [exact R|].
  destruct (String.eqb s "#00ff00"); [exact G | exact B].
Qed.

Lemma after_drops_total_witness :
  let w' := after_drops demo_colorOfStyle
              [drop_left_edge; drop_stale; mkDrop "m2" 500 100 800; drop_empty]
              module_world in
  totalContents (beakers w') = 2%nat /\
  length (beakers w') = 3%nat /\
  molecules w' = [mol_d2; mol_zero; mol_bare].
Proof.
  apply (after_drops_total demo_colorOfStyle
           [drop_left_edge; drop_stale; mkDrop "m2" 500 100 800; drop_empty]
           module_world).
  - discriminate.
  - repeat constructor.
Defined.

Lemma after_drops_append_only_witness :
  exists (b' : Beaker) (added : list Molecule),
    beakers (after_drops demo_colorOfStyle
               [drop_left_edge; mkDrop "m2" 100 100 800] module_world)
    !! 0%nat = Some b' /\
    position b' = (-4 + inject_Z 0 * 4, 0.8, 0) /\
    contents b' = [] ++ added /\
    forall m, In m added -> In m [mol_d2; mol_zero; mol_bare].
Proof.
  apply (after_drops_append_only demo_colorOfStyle
           [drop_left_edge; mkDrop "m2" 100 100 800] module_world 0
           (mkBeaker (-4 + inject_Z 0 * 4, 0.8, 0)
                     (demo_colorOfHex 0x66c2ff) [])).
  reflexivity.
Defined.

Lemma after_drops_in_gamut_witness :
  Forall (fun b => in_gamut (liquid b))
         (beakers (after_drops demo_colorOfStyle
                     [drop_left_edge; mkDrop "m2" 500 100 800] module_world)).
Proof.
  apply (after_drops_in_gamut demo_colorOfStyle
           [drop_left_edge; mkDrop "m2" 500 100 800] module_world).
  - exact demo_colorOfStyle_in_gamut.
  - destruct demo_colorOfHex_in_gamut as (_ & _ & B).
    unfold module_world, initial_beakers. cbn [beakers map].
    repeat (constructor; [exact B|]). constructor.
Defined.

Lemma drag_then_drop_witness :
  exists (m0 : Molecule) (pre post : list Molecule)
         (i : nat) (b : Beaker) (w' : World),
    [mol_d2; mol_zero; mol_bare] = pre ++ m0 :: post /\
    (forall m', In m' pre -> mol_id m' <> "m1"%string) /\
    mol_id m0 = "m1"%string /\
    (List.NoDup ["m1"%string; "m2"%string; "m3"%string] -> m0 = mol_d2) /\
    beakers module_world !! i = Some b /\
    onDrop demo_colorOfStyle drop_left_edge module_world = (Ok tt, w') /\
    beakers w'
    = <[i := beaker_plus demo_colorOfStyle m0 b]> (beakers module_world).
Proof.
  apply (drag_then_drop demo_colorOfStyle mol_d2 drop_left_edge module_world).
  - reflexivity.
  - now left.
  - discriminate.
  - discriminate.
  - reflexivity.
Defined.

(** ** Connecting by double click *)

(** X10.  The receptor name is never one of the menu numbers, choosing a
    name again changes nothing, and any answer other than ["1"], ["2"], ["3"]
    is taken as it was typed. *)
Theorem receptor_name_fixed (a : string) :
  receptor_name a <> "1"%string /\
  receptor_name a <> "2"%string /\
  receptor_name a <> "3"%string /\
  receptor_name (receptor_name a) = receptor_name a /\
  (a <> "1"%string -> a <> "2"%string -> a <> "3"%string ->
   receptor_name a = a).
Proof.
  unfold receptor_name.
  destruct (String.eqb_spec a "1") as [->|H1];
    [repeat split; try discriminate; intros; congruence|].
  destruct (String.eqb_spec a "2") as [->|H2];
    [repeat split; try discriminate; intros; congruence|].
  destruct (String.eqb_spec a "3") as [->|H3];
    [repeat split; try discriminate; intros; congruence|].
  repeat split; try assumption.
  apply String.eqb_neq in H1, H2, H3. now rewrite H1, H2, H3.
Qed.

(** X11.  With a non-empty answer and no global property [constAffinity],
    [showReceptorDialog] ends in the ReferenceError of
    [getSimulatedEffects]: nothing is displayed and the state is as it
    was. *)
Theorem showReceptorDialog_throws (mol : Molecule) (a : string) (w : World) :
  a <> ""%string ->
  globals w !! "constAffinity" = None ->
  showReceptorDialog mol (Some a) w
  = (Throw (ReferenceError "constAffinity"), w).
Proof.
  intros Ha Hg. unfold showReceptorDialog.
  rewrite (truthy_str_nonempty a Ha). cbn [negb]. unfold bind.
  now rewrite (getSimulatedEffects_unbound mol (receptor_name a) w Hg).
Qed.

Lemma showReceptorDialog_throws_witness :
  showReceptorDialog mol_d2 (Some "2"%string) module_world
  = (Throw (ReferenceError "constAffinity"), module_world).
Proof.
  apply (showReceptorDialog_throws mol_d2 "2" module_world).
  - discriminate.
  - reflexivity.
Defined.

(** X12.  With a non-empty answer, where the global property exists,
    [showReceptorDialog] displays exactly one result: it is for the molecule
    and the chosen receptor name, carries the molecule's safety flag
    (["yellow"] when that is missing or empty), costs five draws and leaves
    beakers and catalog alone. *)
Theorem showReceptorDialog_displays
  (mol : Molecule) (a : string) (w : World) (v : Q) :
  a <> ""%string ->
  globals w !! "constAffinity" = Some v ->
  exists res w',
    showReceptorDialog mol (Some a) w = (Ok tt, w') /\
    sink w' = sink w ++ [ConnectionResult mol res] /\
    sim_receptor res = receptor_name a /\
    safety res = or_str (mol_safety mol) "yellow" /\
    safety res <> ""%string /\
    drawn w' = (5 + drawn w)%nat /\
    beakers w' = beakers w /\
    molecules w' = molecules w.
Proof.
  intros Ha Hg. unfold showReceptorDialog.
  rewrite (truthy_str_nonempty a Ha). cbn [negb]. unfold bind.
  rewrite (getSimulatedEffects_bound mol (receptor_name a) w v Hg).
  eexists _, _. split; [reflexivity|].
  cbn [sink set_sink set_drawn set_globals drawn beakers molecules
       effect_of sim_receptor safety].
  repeat split.
  change (safety (effect_of mol (receptor_name a) w))
    with (or_str (mol_safety mol) "yellow").
  unfold or_str, truthy_str.
  destruct (mol_safety mol) as [s|]; [|discriminate].
  destruct (String.eqb_spec s "") as [->|Hs]; cbn [negb];
    [discriminate | exact Hs].
Qed.

Lemma showReceptorDialog_displays_witness :
  exists res w',
    showReceptorDialog mol_bare (Some "2"%string) patched_world = (Ok tt, w') /\
    sink w' = [ConnectionResult mol_bare res] /\
    sim_receptor res = "D2"%string /\
    safety res = "yellow"%string /\
    safety res <> ""%string /\
    drawn w' = 5%nat /\
    beakers w' = beakers patched_world /\
    molecules w' = molecules patched_world.
Proof.
  apply (showReceptorDialog_displays mol_bare "2" patched_world 0).
  - discriminate.
  - reflexivity.
Defined.

Section PickFacts.

Variable toLowerCase : string -> string.

(** X13.  A double click that met no sphere does nothing.  One that met a
    sphere runs the receptor dialog for the first catalog molecule that has a
    non-empty colour equal, after lower-casing, to the sphere's: molecules
    without colour, and molecules sharing their colour with an earlier
    catalog entry, are never the one connected.  If no molecule has that
    colour, nothing happens. *)
Theorem onDblClick_outcome
  (hit : option string) (answer : option string) (w : World) :
  match hit with
  | None => onDblClick toLowerCase hit answer w = (Ok tt, w)
  | Some colorHex =>
      let unlike (m' : Molecule) :=
        forall c', mol_color m' = Some c' ->
                   c' = ""%string \/ toLowerCase c' <> toLowerCase colorHex in
      (exists pre m post c,
          molecules w = pre ++ m :: post /\
          mol_color m = Some c /\ c <> ""%string /\
          toLowerCase c = toLowerCase colorHex /\
          (forall m', In m' pre -> unlike m') /\
          onDblClick toLowerCase hit answer w
          = showReceptorDialog m answer w)
      \/
      ((forall m', In m' (molecules w) -> unlike m') /\
       onDblClick toLowerCase hit answer w = (Ok tt, w))
  end.
Proof.
  destruct hit as [colorHex|]; [|reflexivity]. cbv zeta.
  unfold onDblClick, pick_by_color.
  set (f := fun m : Molecule =>
              match mol_color m with
              | Some c => truthy_str c &&
                          String.eqb (toLowerCase c) (toLowerCase colorHex)
              | None => false
              end).
  assert (Hfalse : forall m', f m' = false ->
            forall c', mol_color m' = Some c' ->
              c' = ""%string \/ toLowerCase c' <> toLowerCase colorHex).
  { intros m' Hf c' Hc. unfold f in Hf. rewrite Hc in Hf.
    apply andb_false_iff in Hf as [Hf|Hf].
    - left. unfold truthy_str in Hf. apply negb_false_iff in Hf.
      now apply String.eqb_eq.
    - right. now apply String.eqb_neq. }
  destruct (find f (molecules w)) as [m|] eqn:F.
  - left. destruct (find_first f _ m F) as (pre & post & Hms & Hm & Hpre).
    unfold f in Hm. destruct (mol_color m) as [c|] eqn:Hc; [|discriminate].
    apply andb_true_iff in Hm as [Ht He].
    exists pre, m, post, c. split; [exact Hms|]. split; [exact Hc|].
    split.
    { intros ->. discriminate. }
    split; [now apply String.eqb_eq|]. split; [|reflexivity].
    intros m' Hin. apply Hfalse. now apply Hpre.
  - right. split; [|reflexivity].
    intros m' Hin. apply Hfalse. exact (find_none _ _ F m' Hin).
Qed.

End PickFacts.

(** ** The result of a completed call *)

Ltac effect_bound m r w v H :=
  rewrite (getSimulatedEffects_bound m r w v H);
  eexists _, _; split; [reflexivity|];
  cbv [effect_of activation brainwave delta theta alpha beta mood];
  change (entropy w (0 + drawn w)%nat) with (entropy w (drawn w)).

(** X14.  Where the call completes on a draw in [[0,1)]: an affinity above
    0.5 always gives mood ["elevated"], an affinity of at most 2/7 always
    gives ["neutral"], and in every case the mood is ["elevated"] exactly when
    the returned activation exceeds 0.4. *)
Theorem mood_thresholds (m : Molecule) (r : string) (w : World) (v : Q) :
  globals w !! "constAffinity" = Some v ->
  0 <= entropy w (drawn w) < 1 ->
  exists res w',
    getSimulatedEffects m r w = (Ok res, w') /\
    (0.5 < lookup_affinity m r -> mood res = "elevated"%string) /\
    (lookup_affinity m r <= 2 # 7 -> mood res = "neutral"%string) /\
    (mood res = "elevated"%string <-> 0.4 < activation res) /\
    (mood res = "neutral"%string <-> activation res <= 0.4).
Proof.
  intros H He. effect_bound m r w v H.
  set (a := lookup_affinity m r). set (e := entropy w (drawn w)) in *.
  set (act := Qmin 1 (a * (0.8 + e * 0.6))).
  assert (Hhi : 0.5 < a -> 0.4 < act).
  { intros Ha. apply Q.min_glb_lt; [lra|].
    assert (0 <= a * e) by (apply Qmult_le_0_compat; lra). lra. }
  assert (Hlo : a <= 2 # 7 -> act <= 0.4).
  { intros Ha. apply Q.min_le_iff. right.
    destruct (Qlt_le_dec a 0) as [N|N].
    - assert (0 <= (- a) * (0.8 + e * 0.6))
        by (apply Qmult_le_0_compat; lra). lra.
    - assert (0 <= a * (1 - e)) by (apply Qmult_le_0_compat; lra). lra. }
  destruct (Qlt_le_dec 0.4 act) as [L|L].
  - split; [reflexivity|]. split; [intros Ha; specialize (Hlo Ha); lra|].
    split; split; try reflexivity; try discriminate; intros; try assumption.
    lra.
  - split; [intros Ha; specialize (Hhi Ha); lra|]. split; [reflexivity|].
    split; split; try reflexivity; try discriminate; intros; try assumption.
    lra.
Qed.

Lemma mood_thresholds_witness :
  exists res w',
    getSimulatedEffects mol_d2 "D2" patched_world = (Ok res, w') /\
    (0.5 < 0.9 -> mood res = "elevated"%string) /\
    (0.9 <= 2 # 7 -> mood res = "neutral"%string) /\
    (mood res = "elevated"%string <-> 0.4 < activation res) /\
    (mood res = "neutral"%string <-> activation res <= 0.4).
Proof.
  apply (mood_thresholds mol_d2 "D2" patched_world 0).
  - reflexivity.
  - cbn. lra.
Defined.

Lemma wave_below (base scale act rnd : Q) :
  0 <= base -> 0 < scale -> 0 <= act <= 1 -> 0 <= rnd < 1 ->
  wave base scale act rnd < base + scale.
Proof.
  intros Hb Hs Ha Hr. unfold wave. apply Q.max_lub_lt; [lra|].
  assert (0 <= scale * rnd) by (apply Qmult_le_0_compat; lra).
  assert (0 <= (1 - act) * (scale * rnd)) by (apply Qmult_le_0_compat; lra).
  assert (0 < scale * (1 - rnd)) by (apply Qmult_lt_0_compat; lra).
  lra.
Qed.

(** X15.  Where the call completes on a well-formed molecule and draws in
    [[0,1)], no brainwave component exceeds base plus scale: delta is at most
    0.2, theta at most 0.18, alpha at most 0.32, beta at most 0.24. *)
Theorem brainwave_ceilings (m : Molecule) (r : string) (w : World) (v : Q) :
  globals w !! "constAffinity" = Some v ->
  valid_molecule m ->
  (forall i, 0 <= entropy w i < 1) ->
  exists res w',
    getSimulatedEffects m r w = (Ok res, w') /\
    delta (brainwave res) <= 0.2 /\
    theta (brainwave res) <= 0.18 /\
    alpha (brainwave res) <= 0.32 /\
    beta (brainwave res) <= 0.24.
Proof.
  intros H V He. effect_bound m r w v H.
  pose proof (lookup_affinity_range m r V) as [La _].
  pose proof (activation_range (lookup_affinity m r)
                (entropy w (drawn w)) La (He _)) as A.
  set (act := Qmin 1 _) in *.
  split; [|split; [|split]].
  - eapply Qle_trans;
      [apply Qlt_le_weak, wave_below; try apply He; try exact A; lra|].
    lra.
  - eapply Qle_trans;
      [apply Qlt_le_weak, wave_below; try apply He; try exact A; lra|].
    lra.
  - eapply Qle_trans;
      [apply Qlt_le_weak, wave_below; try apply He; try exact A; lra|].
    lra.
  - eapply Qle_trans;
      [apply Qlt_le_weak, wave_below; try apply He; try exact A; lra|].
    lra.
Qed.

Lemma brainwave_ceilings_witness :
  exists res w',
    getSimulatedEffects mol_d2 "D2" patched_world = (Ok res, w') /\
    delta (brainwave res) <= 0.2 /\
    theta (brainwave res) <= 0.18 /\
    alpha (brainwave res) <= 0.32 /\
    beta (brainwave res) <= 0.24.
Proof.
  apply (brainwave_ceilings mol_d2 "D2" patched_world 0).
  - reflexivity.
  - repeat constructor; cbn; lra.
  - intros i. cbn. lra.
Defined.

(** X16.  Where the call completes on a well-formed molecule and a draw in
    [[0,1)], the activation lies between [min(1, 0.8*a)] and [min(1, 1.4*a)]
    for the affinity [a] taken at line 16 (so between 0.72 and 1 for an
    affinity of 0.9). *)
Theorem activation_bracket (m : Molecule) (r : string) (w : World) (v : Q) :
  globals w !! "constAffinity" = Some v ->
  valid_molecule m ->
  0 <= entropy w (drawn w) < 1 ->
  exists res w',
    getSimulatedEffects m r w = (Ok res, w') /\
    Qmin 1 (0.8 * lookup_affinity m r) <= activation res /\
    activation res <= Qmin 1 (1.4 * lookup_affinity m r).
Proof.
  intros H V He. effect_bound m r w v H.
  pose proof (lookup_affinity_range m r V) as [La _].
  set (a := lookup_affinity m r) in *. set (e := entropy w (drawn w)) in *.
  assert (0 <= a * e) by (apply Qmult_le_0_compat; lra).
  assert (0 <= a * (1 - e)) by (apply Qmult_le_0_compat; lra).
  split; apply Q.min_le_compat_l; lra.
Qed.

Lemma activation_bracket_witness :
  exists res w',
    getSimulatedEffects mol_d2 "D2" patched_world = (Ok res, w') /\
    Qmin 1 (0.8 * 0.9) <= activation res /\
    activation res <= Qmin 1 (1.4 * 0.9).
Proof.
  apply (activation_bracket mol_d2 "D2" patched_world 0).
  - reflexivity.
  - repeat constructor; cbn; lra.
  - cbn. lra.
Defined.

(** ** What gets displayed *)

Lemma push_shift_fold (vs d : list Q) :
  fold_left push_shift vs d = skipn (length vs) (d ++ vs).
Proof.
  revert d. induction vs as [|v vs IH]; intros d.
  - cbn. now rewrite app_nil_r.
  - cbn [fold_left length]. rewrite IH. unfold push_shift.
    destruct d as [|x d]; cbn [app tl skipn].
    + reflexivity.
    + now rewrite <- app_assoc.
Qed.

Lemma chart_after_bands (bws : list Brainwave) (c : Chart) :
  ch_delta (chart_after bws c)
  = fold_left push_shift (map delta bws) (ch_delta c) /\
  ch_theta (chart_after bws c)
  = fold_left push_shift (map theta bws) (ch_theta c) /\
  ch_alpha (chart_after bws c)
  = fold_left push_shift (map alpha bws) (ch_alpha c) /\
  ch_beta (chart_after bws c)
  = fold_left push_shift (map beta bws) (ch_beta c).
Proof.
  unfold chart_after. revert c.
  induction bws as [|bw bws IH]; intros c; [repeat split|].
  cbn [fold_left map]. destruct (IH (chart_update c bw)) as (D & T & A & B).
  rewrite D, T, A, B. repeat split.
Qed.

Lemma window_flushed (d vs : list Q) :
  (length d <= length vs)%nat ->
  skipn (length vs) (d ++ vs) = skipn (length vs - length d) vs.
Proof.
  intros H. rewrite skipn_app.
  rewrite (skipn_all2 d) by exact H. reflexivity.
Qed.

(** X17.  Each chart band is a rolling window: after any number of displayed
    results it has the length it had, it holds the last that many values of
    its old data followed by the results' components, in order; and once at
    least as many results as its length were displayed, it holds results
    only. *)
Theorem chart_after_window
  (band : Chart -> list Q) (comp : Brainwave -> Q)
  (bws : list Brainwave) (c : Chart) :
  In (band, comp)
     [(ch_delta, delta); (ch_theta, theta);
      (ch_alpha, alpha); (ch_beta, beta)] ->
  band (chart_after bws c)
  = skipn (length bws) (band c ++ map comp bws) /\
  length (band (chart_after bws c)) = length (band c) /\
  ((length (band c) <= length bws)%nat ->
   band (chart_after bws c)
   = map comp (skipn (length bws - length (band c)) bws)).
Proof.
  intros Hin.
  assert (W : band (chart_after bws c)
              = skipn (length bws) (band c ++ map comp bws)).
  { destruct (chart_after_bands bws c) as (D & T & A & B).
    destruct Hin as [E|[E|[E|[E|[]]]]]; injection E as <- <-;
      [rewrite D | rewrite T | rewrite A | rewrite B];
      rewrite push_shift_fold; now rewrite length_map. }
  split; [exact W|]. split.
  - rewrite W, length_skipn, length_app, length_map. lia.
  - intros H. rewrite W.
    rewrite <- (length_map comp bws) at 1.
    rewrite window_flushed by (now rewrite length_map).
    rewrite length_map. now rewrite skipn_map.
Qed.

Lemma chart_after_window_witness :
  let bws := [mkBrainwave 1 2 3 4; mkBrainwave 5 6 7 8] in
  ch_theta (chart_after bws initial_chart)
  = skipn 2 ([0.08; 0.09; 0.13; 0.1] ++ [2; 6]) /\
  length (ch_theta (chart_after bws initial_chart)) = 4%nat /\
  ((4 <= 2)%nat ->
   ch_theta (chart_after bws initial_chart)
   = map theta (skipn (2 - 4) bws)).
Proof.
  apply (chart_after_window ch_theta theta
           [mkBrainwave 1 2 3 4; mkBrainwave 5 6 7 8] initial_chart).
  right. left. reflexivity.
Defined.

(** X18.  The hologram colour and the warnings follow the result's safety
    string by exact comparison: ["red"] gives the red pulse and the high-risk
    warning, ["yellow"] the amber pulse and the caution, and every other
    string (["green"], but also ["Red"] or ["RED"]) the green pulse and no
    warning besides the references line, which always comes last.  A molecule
    without a safety flag is shown as ["yellow"]. *)
Theorem safety_display (m : Molecule) (r : string) (w : World) (v : Q) :
  globals w !! "constAffinity" = Some v ->
  exists res w',
    getSimulatedEffects m r w = (Ok res, w') /\
    let sf := safety res in
    ((mol_safety m = None \/ mol_safety m = Some ""%string) ->
     sf = "yellow"%string) /\
    (forall s, mol_safety m = Some s -> s <> ""%string -> sf = s) /\
    (sf = "red"%string ->
     brain_emissive sf = 0xff6b6b%Z /\
     warnings_for sf = [HighRisk; References]) /\
    (sf = "yellow"%string ->
     brain_emissive sf = 0xffd36b%Z /\
     warnings_for sf = [Experimental; References]) /\
    (sf <> "red"%string -> sf <> "yellow"%string ->
     brain_emissive sf = 0x79f2b2%Z /\
     warnings_for sf = [References]).
Proof.
  intros H. rewrite (getSimulatedEffects_bound m r w v H).
  eexists _, _. split; [reflexivity|].
  change (safety (effect_of m r w)) with (or_str (mol_safety m) "yellow").
  cbv zeta. set (sf := or_str (mol_safety m) "yellow").
  split; [intros [E|E]; unfold sf; rewrite E; reflexivity|].
  split; [intros s E Hs; unfold sf; rewrite E; now apply or_str_present|].
  split; [intros ->; split; reflexivity|].
  split; [intros ->; split; reflexivity|].
  intros H1 H2. unfold brain_emissive, warnings_for.
  apply String.eqb_neq in H1, H2. rewrite H1, H2. split; reflexivity.
Qed.

Lemma safety_display_witness :
  exists res w',
    getSimulatedEffects mol_bare "D2" patched_world = (Ok res, w') /\
    let sf := safety res in
    ((mol_safety mol_bare = None \/ mol_safety mol_bare = Some ""%string) ->
     sf = "yellow"%string) /\
    (forall s, mol_safety mol_bare = Some s -> s <> ""%string -> sf = s) /\
    (sf = "red"%string ->
     brain_emissive sf = 0xff6b6b%Z /\
     warnings_for sf = [HighRisk; References]) /\
    (sf = "yellow"%string ->
     brain_emissive sf = 0xffd36b%Z /\
     warnings_for sf = [Experimental; References]) /\
    (sf <> "red"%string -> sf <> "yellow"%string ->
     brain_emissive sf = 0x79f2b2%Z /\
     warnings_for sf = [References]).
Proof.
  apply (safety_display mol_bare "D2" patched_world 0). reflexivity.
Defined.

(** X19.  Where the call completes on a well-formed molecule and a draw in
    [[0,1)], the hologram's opacity lies in [[0.25, 0.85]] and the percentage
    of the summary sentence in [[0, 100]]. *)
Theorem display_ranges (m : Molecule) (r : string) (w : World) (v : Q) :
  globals w !! "constAffinity" = Some v ->
  valid_molecule m ->
  0 <= entropy w (drawn w) < 1 ->
  exists res w',
    getSimulatedEffects m r w = (Ok res, w') /\
    0.25 <= brain_opacity (activation res) <= 0.85 /\
    (0 <= activation_percent (activation res) <= 100)%Z.
Proof.
  intros H V He. effect_bound m r w v H.
  pose proof (lookup_affinity_range m r V) as [La _].
  pose proof (activation_range (lookup_affinity m r)
                (entropy w (drawn w)) La He) as A.
  set (act := Qmin 1 _) in *. unfold brain_opacity, activation_percent.
  split; [lra|]. split.
  - apply Math_round_above. unfold inject_Z. lra.
  - assert (Math_round (act * 100) < 101)%Z; [|lia].
    apply Math_round_below. unfold inject_Z. lra.
Qed.

Lemma display_ranges_witness :
  exists res w',
    getSimulatedEffects mol_d2 "D2" patched_world = (Ok res, w') /\
    0.25 <= brain_opacity (activation res) <= 0.85 /\
    (0 <= activation_percent (activation res) <= 100)%Z.
Proof.
  apply (display_ranges mol_d2 "D2" patched_world 0).
  - reflexivity.
  - repeat constructor; cbn; lra.
  - cbn. lra.
Defined.

(** ** More on drops and double clicks *)

Section MoreFacts.

Variable colorOfStyle : string -> Color.
Variable toLowerCase : string -> string.

(** X21.  Without a global property [constAffinity], no double click ever
    displays a result: whatever was hit and whatever the prompt returns, the
    handler either returns having done nothing or ends in the
    ReferenceError, and the state is exactly what it was. *)
Theorem onDblClick_never_displays
  (hit : option string) (answer : option string) (w : World) :
  globals w !! "constAffinity" = None ->
  snd (onDblClick toLowerCase hit answer w) = w /\
  (fst (onDblClick toLowerCase hit answer w) = Ok tt \/
   fst (onDblClick toLowerCase hit answer w)
   = Throw (ReferenceError "constAffinity")).
Proof.
  intros Hg. unfold onDblClick.
  destruct hit as [colorHex|]; [|split; [reflexivity | now left]].
  destruct (pick_by_color toLowerCase colorHex (molecules w)) as [mol|];
    [|split; [reflexivity | now left]].
  destruct answer as [a|]; [|split; [reflexivity | now left]].
  destruct (String.eqb_spec a "") as [->|Ha];
    [split; [reflexivity | now left]|].
  unfold showReceptorDialog.
  rewrite (truthy_str_nonempty a Ha). cbn [negb]. unfold bind.
  rewrite (getSimulatedEffects_unbound mol (receptor_name a) w Hg).
  split; [reflexivity | now right].
Qed.

(** X22.  Adding the same molecule [k] times in a row to one beaker appends
    [k] copies of it and brings every channel of the liquid geometrically
    closer to the molecule's colour: the remaining distance is [(4/5)^k]
    times the initial one (the blend being the linear interpolation modelled
    by [lerp]). *)
Theorem add_times_decay
  (mol : Molecule) (i k : nat) (b : Beaker) (w : World) :
  beakers w !! i = Some b ->
  let target := colorOfStyle (or_str (mol_color mol) "#66c2ff") in
  exists b',
    beakers (add_times colorOfStyle mol i k w) !! i = Some b' /\
    position b' = position b /\
    contents b' = contents b ++ repeat mol k /\
    cr (liquid b') - cr target
    == (4 # 5) ^ Z.of_nat k * (cr (liquid b) - cr target) /\
    cg (liquid b') - cg target
    == (4 # 5) ^ Z.of_nat k * (cg (liquid b) - cg target) /\
    cb (liquid b') - cb target
    == (4 # 5) ^ Z.of_nat k * (cb (liquid b) - cb target).
Proof.
  intros Hb target. induction k as [|k IH].
  - exists b. cbn [add_times Nat.iter repeat]. rewrite app_nil_r.
    change ((4 # 5) ^ Z.of_nat 0) with 1.
    repeat split; try exact Hb; ring.
  - destruct IH as (bk & Hk & Pk & Ck & Rk & Gk & Bk).
    unfold add_times in *. rewrite Nat.iter_succ.
    set (wk := Nat.iter k _ w) in *.
    pose proof (addMoleculeToBeaker_outcome colorOfStyle mol (Z.of_nat i) wk)
      as O.
    rewrite beaker_at_nat, Hk, Nat2Z.id in O.
    destruct O as (w' & -> & Hbs & _). cbn [snd].
    exists (beaker_plus colorOfStyle mol bk). split.
    { rewrite Hbs. apply list_lookup_insert_eq.
      now apply lookup_lt_Some with bk. }
    split; [exact Pk|]. split.
    { cbn [beaker_plus contents]. rewrite Ck, <- app_assoc.
      now rewrite <- repeat_cons. }
    assert (Hp : (4 # 5) ^ Z.of_nat (S k)
                 == (4 # 5) ^ Z.of_nat k * (4 # 5)).
    { rewrite Nat2Z.inj_succ, <- Z.add_1_r.
      rewrite Qpower_plus by discriminate. reflexivity. }
    cbn [beaker_plus liquid lerp cr cg cb]. fold target.
    rewrite Hp. set (p := (4 # 5) ^ Z.of_nat k) in *.
    repeat split.
    + transitivity ((4 # 5) * (cr (liquid bk) - cr target)); [ring|].
      rewrite Rk. ring.
    + transitivity ((4 # 5) * (cg (liquid bk) - cg target)); [ring|].
      rewrite Gk. ring.
    + transitivity ((4 # 5) * (cb (liquid bk) - cb target)); [ring|].
      rewrite Bk. ring.
Qed.

End MoreFacts.

Lemma onDblClick_never_displays_witness :
  snd (onDblClick (fun s => s) (Some "#ff0000"%string) (Some "2"%string)
         module_world) = module_world /\
  (fst (onDblClick (fun s => s) (Some "#ff0000"%string) (Some "2"%string)
          module_world) = Ok tt \/
   fst (onDblClick (fun s => s) (Some "#ff0000"%string) (Some "2"%string)
          module_world) = Throw (ReferenceError "constAffinity")).
Proof.
  apply (onDblClick_never_displays (fun s => s) (Some "#ff0000"%string)
           (Some "2"%string) module_world).
  reflexivity.
Defined.

Lemma add_times_decay_witness :
  exists b',
    beakers (add_times demo_colorOfStyle mol_d2 1 3 module_world) !! 1%nat
    = Some b' /\
    position b' = (-4 + inject_Z 1 * 4, 0.8, 0) /\
    contents b' = [] ++ repeat mol_d2 3 /\
    cr (liquid b') - cr (demo_colorOfStyle "#ff0000")
    == (4 # 5) ^ Z.of_nat 3
       * (cr (demo_colorOfHex 0x66c2ff) - cr (demo_colorOfStyle "#ff0000")) /\
    cg (liquid b') - cg (demo_colorOfStyle "#ff0000")
    == (4 # 5) ^ Z.of_nat 3
       * (cg (demo_colorOfHex 0x66c2ff) - cg (demo_colorOfStyle "#ff0000")) /\
    cb (liquid b') - cb (demo_colorOfStyle "#ff0000")
    == (4 # 5) ^ Z.of_nat 3
       * (cb (demo_colorOfHex 0x66c2ff) - cb (demo_colorOfStyle "#ff0000")).
Proof.
  apply (add_times_decay demo_colorOfStyle mol_d2 1 3
           (mkBeaker (-4 + inject_Z 1 * 4, 0.8, 0)
                     (demo_colorOfHex 0x66c2ff) [])
           module_world).
  reflexivity.
Defined.
